(** * Prompt revision workflow: a shallow embedding of [services/ai.ts] and [App.tsx]

    The development follows the TypeScript sources closely.

    - Strings are byte strings ([String.string]); a JavaScript string is
      read as its UTF-8 encoding.  Every character the code inspects
      (['v'], ['.'], digits, signs, white space) is recognised on that
      encoding.
    - A JavaScript [Number] that holds an integer is a [Z] together with the
      rounding to the 53-bit significand of a double written out
      ([round_to_double]); [NaN] and the infinities are separate constructors.
    - [async] handlers are split at their [await]: the part before it
      produces the outbound request, the part after it consumes the outcome
      of the collaborator (a value or a thrown exception).
    - React state ([useState]) is one record, [AppState]; a setter is a
      record update. *)

From Stdlib Require Import ZArith List String Ascii Bool Lia QArith.
From Stdlib Require Import Numbers.DecimalString Numbers.DecimalPos Numbers.DecimalFacts.
Import ListNotations.

Open Scope string_scope.
Open Scope Z_scope.

(** ** JavaScript strings *)

Module JsString.

(** [String.prototype.startsWith]. *)
Fixpoint startsWith (pat s : string) : bool :=
  match pat, s with
  | EmptyString, _ => true
  | String _ _, EmptyString => false
  | String a pat', String b s' => Ascii.eqb a b && startsWith pat' s'
  end.

Fixpoint drop (n : nat) (s : string) : string :=
  match n, s with
  | O, _ => s
  | S _, EmptyString => EmptyString
  | S n', String _ s' => drop n' s'
  end.

(** [s.replace(pat, rep)] with a string pattern: only the first occurrence
    is replaced.  ([rep] is [''] at the only call site, so the [$]
    replacement patterns play no part.) *)
Fixpoint replace (pat rep s : string) : string :=
  if startsWith pat s then rep ++ drop (String.length pat) s
  else match s with
       | EmptyString => EmptyString
       | String c s' => String c (replace pat rep s')
       end.

(** [s.split(sep)[0]] for a non-empty separator: the text before the first
    occurrence of [sep], the whole string when there is none. *)
Fixpoint split_head (sep s : string) : string :=
  match s with
  | EmptyString => EmptyString
  | String c s' =>
      if startsWith sep s then EmptyString else String c (split_head sep s')
  end.

(** The white space and line terminators that [parseInt] skips
    (ECMAScript [StrWhiteSpaceChar]), in UTF-8.  The result is the number
    of bytes of the white-space character that starts [s], [0] when none
    does. *)
Definition white_space_width (s : string) : nat :=
  match s with
  | String c r =>
      let n := nat_of_ascii c in
      if ((9 <=? n) && (n <=? 13) || (n =? 32))%nat then 1%nat       (* TAB LF VT FF CR SP *)
      else if (n <? 194)%nat then 0%nat
      else if (n =? 194)%nat then
        match r with
        | String d _ => if (nat_of_ascii d =? 160)%nat then 2%nat else 0%nat  (* U+00A0 *)
        | _ => 0%nat
        end
      else
        match r with
        | String d (String e _) =>
            let d := nat_of_ascii d in
            let e := nat_of_ascii e in
            if (n =? 225)%nat && (d =? 154)%nat && (e =? 128)%nat then 3%nat  (* U+1680 *)
            else if (n =? 226)%nat && (d =? 128)%nat
                    && ((128 <=? e) && (e <=? 138)            (* U+2000 .. U+200A *)
                        || (e =? 168) || (e =? 169)           (* U+2028, U+2029 *)
                        || (e =? 175))%nat then 3%nat         (* U+202F *)
            else if (n =? 226)%nat && (d =? 129)%nat && (e =? 159)%nat then 3%nat  (* U+205F *)
            else if (n =? 227)%nat && (d =? 128)%nat && (e =? 128)%nat then 3%nat  (* U+3000 *)
            else if (n =? 239)%nat && (d =? 187)%nat && (e =? 191)%nat then 3%nat  (* U+FEFF *)
            else 0%nat
        | _ => 0%nat
        end
  | EmptyString => 0%nat
  end.

(** Leading white space removed ([TrimString(_, start)]).  [fuel] bounds the
    number of characters removed; the length of the string is enough. *)
Fixpoint trim_start_fuel (fuel : nat) (s : string) : string :=
  match fuel with
  | O => s
  | S fuel' =>
      match white_space_width s with
      | O => s
      | w => trim_start_fuel fuel' (drop w s)
      end
  end.

Definition trim_start (s : string) : string :=
  trim_start_fuel (String.length s) s.

End JsString.

(** ** JavaScript numbers that hold integers *)

Module JsNumber.

(** The values that [parseInt] and [+ 1] can produce: [NaN], an
    integer-valued double, or an infinity ([Inf true] is [-Infinity]).  The
    sign of a zero is not kept: the code only adds [1] to the value and
    prints it, and both erase that sign. *)
Inductive Number : Type :=
  | NaN
  | Fin (z : Z)
  | Inf (negative : bool).

(** Round-to-nearest, ties-to-even, of a non-negative integer to a 53-bit
    significand. *)
Definition round_pos (z : Z) : Z :=
  if z <? 2 ^ 53 then z
  else
    let e := Z.log2 z - 52 in
    let q := Z.shiftr z e in
    let r := z - Z.shiftl q e in
    let half := Z.shiftl 1 (e - 1) in
    let q' := if r <? half then q
              else if half <? r then q + 1
              else if Z.even q then q else q + 1 in
    Z.shiftl q' e.

(** The Number value of a mathematical integer. *)
Definition round_to_double (z : Z) : Number :=
  let m := round_pos (Z.abs z) in
  if 2 ^ 1024 <=? m then Inf (z <? 0)
  else Fin (if z <? 0 then - m else m).

(** [x + 1]. *)
Definition add1 (x : Number) : Number :=
  match x with
  | NaN => NaN
  | Fin z => round_to_double (z + 1)
  | Inf b => Inf b
  end.

Definition isNaN (x : Number) : bool :=
  match x with NaN => true | _ => false end.

(** *** [parseInt(string)] with no radix argument *)

Definition digit_value (radix : Z) (c : ascii) : option Z :=
  let n := Z.of_nat (nat_of_ascii c) in
  let v := if (48 <=? n) && (n <=? 57) then Some (n - 48)
           else if (97 <=? n) && (n <=? 122) then Some (n - 97 + 10)
           else if (65 <=? n) && (n <=? 90) then Some (n - 65 + 10)
           else None in
  match v with
  | Some d => if d <? radix then Some d else None
  | None => None
  end.

(** The longest prefix of radix-[radix] digits, read left to right with
    accumulator [acc]; [seen] says whether a digit has been read. *)
Fixpoint read_digits (radix : Z) (s : string) (acc : Z) (seen : bool) : option Z :=
  match s with
  | EmptyString => if seen then Some acc else None
  | String c s' =>
      match digit_value radix c with
      | Some d => read_digits radix s' (acc * radix + d) true
      | None => if seen then Some acc else None
      end
  end.

(** ECMAScript [parseInt]: skip white space, read a sign, accept a [0x] or
    [0X] prefix (radix 16, otherwise 10), read the longest run of digits and
    round the integer read to a Number; [NaN] when there is no digit.
    (Past the twentieth significant digit the standard lets an engine
    approximate; the value here is the exactly rounded one.) *)
Definition parseInt (input : string) : Number :=
  let s := JsString.trim_start input in
  let '(neg, s) :=
    match s with
    | String "-" r => (true, r)
    | String "+" r => (false, r)
    | _ => (false, s)
    end in
  let '(radix, s) :=
    if JsString.startsWith "0x" s || JsString.startsWith "0X" s
    then (16, JsString.drop 2 s) else (10, s) in
  match read_digits radix s 0 false with
  | None => NaN
  | Some m => round_to_double (if neg then - m else m)
  end.

(** *** [Number::toString], radix 10, on integer values *)

(** The decimal numeral of an integer, with a leading [-] when negative. *)
Definition decimal (z : Z) : string :=
  NilEmpty.string_of_int (Z.to_int z).

(** Number of decimal digits of a positive integer. *)
Definition num_digits (z : Z) : Z :=
  Z.of_nat (String.length (decimal z)).

(** The real number [s * 10^(n-k)] that the standard prints for a positive
    integer-valued double [x]: [k], the number of significant digits, is as
    small as possible among the values that round to [x]; among those the
    one closest to [x] is taken, the even [s] on a tie.  [d] is the number
    of digits of [x]; the search tries [k = 1, 2, ...] and stops at
    [k = d], where [x] itself is a candidate. *)
Fixpoint shortest_search (fuel : nat) (k d x : Z) : Z :=
  match fuel with
  | O => x
  | S fuel' =>
      let p := 10 ^ (d - k) in
      let lo := x / p in
      let vlo := lo * p in
      let vhi := (lo + 1) * p in
      let oklo := round_pos vlo =? x in
      let okhi := round_pos vhi =? x in
      if oklo && okhi then
        if x - vlo <? vhi - x then vlo
        else if vhi - x <? x - vlo then vhi
        else if Z.even lo then vlo else vhi
      else if oklo then vlo
      else if okhi then vhi
      else shortest_search fuel' (k + 1) d x
  end.

Definition shortest_value (x : Z) : Z :=
  let d := num_digits x in
  shortest_search (Z.to_nat d) 1 d x.

Fixpoint strip_trailing_zeros_rev (r : list ascii) : list ascii :=
  match r with
  | "0"%char :: r' => strip_trailing_zeros_rev r'
  | _ => r
  end.

Definition significant_digits (s : string) : string :=
  string_of_list_ascii
    (rev (strip_trailing_zeros_rev (rev (list_ascii_of_string s)))).

(** The digits of a positive integer-valued double: plain decimal notation
    up to 21 digits, exponent notation above. *)
Definition toString_pos (x : Z) : string :=
  let v := shortest_value x in
  let n := num_digits v in
  if v <? 10 ^ 21 then decimal v          (* [n <= 21] *)
  else
    let exponent := "e+" ++ decimal (n - 1) in
    match significant_digits (decimal v) with
    | String c EmptyString => String c exponent
    | String c rest => String c ("." ++ rest ++ exponent)
    | EmptyString => exponent
    end.

(** [Number::toString(x)] as used by a template literal. *)
Definition toString (x : Number) : string :=
  match x with
  | NaN => "NaN"
  | Inf false => "Infinity"
  | Inf true => "-Infinity"
  | Fin z =>
      if z =? 0 then "0"
      else if z <? 0 then "-" ++ toString_pos (- z)
      else toString_pos z
  end.

End JsNumber.

(** ** Values, exceptions and the declarations of [types.ts] *)

(** What [JSON.parse] returns.  A number carries the value of its double. *)
#[warnings="-register-all"]
Inductive json : Type :=
  | JNull
  | JBool (b : bool)
  | JNum (q : Q)
  | JStr (s : string)
  | JArr (items : list json)
  | JObj (fields : list (string * json)).

(** A JavaScript value met by the code: [None] is [undefined]. *)
Definition jsval : Type := option json.

(** A thrown value: the class of the error and its [message]. *)
Record exn : Type := mkExn { exn_name : string; exn_message : string }.

(** The outcome of an expression or of an awaited promise. *)
Inductive result (A : Type) : Type :=
  | Ok (a : A)
  | Throw (e : exn).
Arguments Ok {A} a.
Arguments Throw {A} e.

Definition bind {A B : Type} (r : result A) (k : A -> result B) : result B :=
  match r with
  | Ok a => k a
  | Throw e => Throw e
  end.

Notation "'let*' x ':=' r 'in' k" := (bind r (fun x => k))
  (at level 10, x name, r at level 100, k at level 200).

(** [try { body } catch (e) { handler(e) }]. *)
Definition try_catch {A : Type} (body : result A) (handler : exn -> result A) : result A :=
  match body with
  | Ok a => Ok a
  | Throw e => handler e
  end.

Record PromptRecord : Type := mkPrompt {
  id : option Z;
  title : string;
  summary : string;
  content : string;
  excontext : option string;
  version : string;
  created_at : option string
}.

Inductive ViewMode : Type := LIST | EDIT | PREVIEW.

Inductive AIModel : Type := GEMINI | QWEN.

Module QWEN_CONFIG.

Definition ENDPOINT : string := "https://dashscope.aliyuncs.com/compatible-mode/v1".
Definition MODEL : string := "qwen-plus".
Definition API_KEY : string := "sk-04b4d0e1038c4fe2abb8dcbaefe2ac56".

End QWEN_CONFIG.

(** Truthiness ([ToBoolean]) of a string and of a parsed JSON value. *)
Definition truthy_string (s : string) : bool :=
  negb (String.eqb s "").

Definition truthy_json (v : json) : bool :=
  match v with
  | JNull => false
  | JBool b => b
  | JNum q => negb (Qeq_bool q 0)
  | JStr s => truthy_string s
  | JArr _ => true
  | JObj _ => true
  end.

Fixpoint assoc (key : string) (fields : list (string * json)) : jsval :=
  match fields with
  | [] => None
  | (k, v) :: rest => if String.eqb k key then Some v else assoc key rest
  end.

(** ** The runtime and the outside world *)

(** The parts of the JavaScript runtime that the code calls and that are
    not written out here. *)
Class Runtime : Type := {
  (** [JSON.parse(text)]: the parsed value, or the [SyntaxError] thrown. *)
  JSON_parse : string -> result json;
  (** [ToString] of a number or an array (the other cases are written out
      in [ToString]). *)
  ToString_other : json -> string;
  (** The message of the [TypeError] raised by reading property [key] of
      [undefined] or [null]. *)
  type_error_message : string -> string;
  (** [x > 0] for a string, an array or an object [x]. *)
  gt_zero_other : json -> bool
}.

(** [String(v)], as [JSON.parse] applies it to its argument. *)
Definition ToString `{Runtime} (v : jsval) : string :=
  match v with
  | None => "undefined"
  | Some JNull => "null"
  | Some (JBool true) => "true"
  | Some (JBool false) => "false"
  | Some (JStr s) => s
  | Some (JObj _) => "[object Object]"
  | Some other => ToString_other other
  end.

(** [v.key] on a value that is neither [undefined] nor [null], for a
    property name that no prototype defines ([choices], [message],
    [content], [optimizedPrompt], [changeLog]).  The fields of a parsed
    object have distinct names. *)
Definition prop (v : json) (key : string) : jsval :=
  match v with
  | JObj fields => assoc key fields
  | _ => None
  end.

(** [v.key] on any value: reading a property of [undefined] or [null]
    throws. *)
Definition get `{Runtime} (v : jsval) (key : string) : result jsval :=
  match v with
  | None | Some JNull => Throw (mkExn "TypeError" (type_error_message key))
  | Some j => Ok (prop j key)
  end.

(** The bytes of the first character of a UTF-8 string. *)
Definition first_char (s : string) : string :=
  match s with
  | EmptyString => EmptyString
  | String c _ =>
      let n := nat_of_ascii c in
      let w := if (n <? 192)%nat then 1%nat
               else if (n <? 224)%nat then 2%nat
               else if (n <? 240)%nat then 3%nat else 4%nat in
      String.substring 0 w s
  end.

(** [v[0]].  On a string it is the first character (for a character
    outside the basic plane JavaScript gives half of it; the code only
    reads properties of the result, which are [undefined] either way). *)
Definition get0 `{Runtime} (v : jsval) : result jsval :=
  match v with
  | None | Some JNull => Throw (mkExn "TypeError" (type_error_message "0"))
  | Some (JArr items) => Ok (nth_error items 0)
  | Some (JObj fields) => Ok (assoc "0" fields)
  | Some (JStr s) => Ok (if truthy_string s then Some (JStr (first_char s)) else None)
  | Some _ => Ok None
  end.

(** What the Gemini SDK is asked: model name, the single user part and the
    requested MIME type. *)
Record GeminiRequest : Type := mkGeminiRequest {
  g_model : string;
  g_text : string;
  g_responseMimeType : string
}.

(** The body of the chat request; [JSON.stringify] of it goes on the wire. *)
Record ChatBody : Type := mkChatBody {
  c_model : string;
  c_messages : list (string * string);   (* role, content *)
  c_response_format : string
}.

Record HttpRequest : Type := mkHttpRequest {
  h_url : string;
  h_method : string;
  h_headers : list (string * string);
  h_body : option ChatBody
}.

(** A [fetch] response: [res.ok] and the body text that [res.json()]
    parses (reading the body can itself fail). *)
Record HttpResponse : Type := mkHttpResponse {
  res_ok : bool;
  res_text : result string
}.

(** The collaborators of [AiService]: the environment variable, the SDK
    call (constructor and [generateContent], giving [response.text]) and
    [fetch].  A rejected promise is a [Throw]. *)
Record World : Type := mkWorld {
  env_API_KEY : option string;
  generateContent : GeminiRequest -> result (option string);
  fetch : HttpRequest -> result HttpResponse
}.

Definition LF : string := String (ascii_of_nat 10) EmptyString.
Definition dq : string := String (ascii_of_nat 34) EmptyString.

(** ** [services/ai.ts] *)

Module AiService.

Definition systemPrompt : string :=
  "
        You are an expert AI Architect (AI 架构师). Your task is to optimize the prompt provided by the user.
        
        Rules:
        1. **Language:** The output MUST be in **Simplified Chinese (简体中文)**. The 'optimizedPrompt' and 'changeLog' must be written in Chinese.
        2. **Optimization:** Add technical constraints, robust error handling, and performance optimizations.
        3. **Formatting:** Use professional Markdown formatting.
        4. **Strict Integrity:** You MUST PRESERVE ALL business logic, specific requirements, and functional details from the original text. **DO NOT** remove, summarize, or simplify any user-defined business rules. The goal is to structure and enhance, not to abridge.
        5. **Specifics:** If the prompt mentions " ++ dq ++
  "Upload" ++ dq ++
  ", " ++ dq ++
  "Export" ++ dq ++
  ", etc., ensure specific technical details are added (e.g., file limits, formats).
        
        Return ONLY a JSON object with this structure:
        {
            " ++ dq ++
  "optimizedPrompt" ++ dq ++
  ": " ++ dq ++
  "string (the full rewritten prompt in Chinese)" ++ dq ++
  ",
            " ++ dq ++
  "changeLog" ++ dq ++
  ": [" ++ dq ++
  "string" ++ dq ++
  ", " ++ dq ++
  "string" ++ dq ++
  "] (list of specific improvements made in Chinese)
        }
        ".

Definition userMessage (title promptContent : string) : string :=
  "Title: " ++ title ++ LF ++ "Content:" ++ LF ++ promptContent.

Section WithRuntime.
Context `{RT : Runtime}.

(** The probe of the chat backend: a [GET] of its model listing. *)
Definition models_request : HttpRequest :=
  mkHttpRequest (QWEN_CONFIG.ENDPOINT ++ "/models") "GET"
    [("Authorization", "Bearer " ++ QWEN_CONFIG.API_KEY)] None.

(** The body of the [try] of [checkConnection]. *)
Definition checkConnection_body (w : World) (model : AIModel) : result bool :=
  match model with
  | GEMINI =>
      Ok (match env_API_KEY w with
          | Some key => truthy_string key
          | None => false
          end)
  | QWEN =>
      let* res := fetch w models_request in
      Ok (res_ok res)
  end.

Definition checkConnection (w : World) (model : AIModel) : result bool :=
  try_catch (checkConnection_body w model) (fun _ => Ok false).

(** The request that [analyzePrompt] sends, for each backend. *)
Definition gemini_request (promptContent title : string) : GeminiRequest :=
  mkGeminiRequest "gemini-3-flash-preview"
    (systemPrompt ++ LF ++ LF ++ userMessage title promptContent)
    "application/json".

Definition qwen_request (promptContent title : string) : HttpRequest :=
  mkHttpRequest (QWEN_CONFIG.ENDPOINT ++ "/chat/completions") "POST"
    [("Content-Type", "application/json");
     ("Authorization", "Bearer " ++ QWEN_CONFIG.API_KEY)]
    (Some (mkChatBody QWEN_CONFIG.MODEL
             [("system", systemPrompt);
              ("user", userMessage title promptContent)]
             "json_object")).

(** [data.choices[0].message.content]. *)
Definition message_content (data : json) : result jsval :=
  let* choices := get (Some data) "choices" in
  let* choice := get0 choices in
  let* message := get choice "message" in
  get message "content".

Definition analyzePrompt (w : World) (model : AIModel)
    (promptContent title : string) : result json :=
  match model with
  | GEMINI =>
      let* response_text := generateContent w (gemini_request promptContent title) in
      let text := match response_text with
                  | Some t => if truthy_string t then t else "{}"
                  | None => "{}"
                  end in
      JSON_parse text
  | QWEN =>
      let* res := fetch w (qwen_request promptContent title) in
      if negb (res_ok res) then Throw (mkExn "Error" "Qwen API failed")
      else
        let* body := res_text res in
        let* data := JSON_parse body in
        let* content := message_content data in
        JSON_parse (ToString content)
  end.

End WithRuntime.
End AiService.

(** ** The storage collaborator ([services/db], used through its interface) *)

(** The object handed to [createPrompt] and [updatePrompt].  Its [content]
    is whatever [aiResult.optimizedPrompt] evaluates to when a result is
    present, hence a [jsval]. *)
Record Payload : Type := mkPayload {
  p_id : option Z;
  p_title : string;
  p_summary : string;
  p_content : jsval;
  p_excontext : string;
  p_version : string;
  p_created_at : option string
}.

Inductive DbCall : Type :=
  | CreatePrompt (record : Payload)
  | UpdatePrompt (id : Z) (record : Payload).

(** [DbService]: each call resolves with the stored record or rejects. *)
Record DbService : Type := mkDb {
  db_call : DbCall -> result PromptRecord;
  getAllPrompts : result (list PromptRecord)
}.

(** ** [App.tsx]: state *)

Inductive ToastType : Type := success | error.

Record Toast : Type := mkToast { msg : string; type : ToastType }.

Record AppState : Type := mkState {
  viewMode : ViewMode;
  prompts : list PromptRecord;
  selectedPromptId : option Z;
  currentPrompt : PromptRecord;
  aiModel : AIModel;
  aiConnected : bool;
  isAnalyzing : bool;
  aiResult : json;               (* [JNull] is [null] *)
  dbConnected : bool;
  isLoadingPrompts : bool;
  searchTerm : string;
  toast : option Toast;
  showSqlModal : bool
}.

Definition emptyPrompt : PromptRecord :=
  mkPrompt None "" "" "" (Some "") "v1.0" None.

(** The initial values of the [useState] calls. *)
Definition initialState : AppState :=
  mkState LIST [] None emptyPrompt GEMINI false false JNull false false "" None false.

Definition setViewMode (v : ViewMode) (s : AppState) : AppState :=
  mkState v (prompts s) (selectedPromptId s) (currentPrompt s) (aiModel s)
    (aiConnected s) (isAnalyzing s) (aiResult s) (dbConnected s)
    (isLoadingPrompts s) (searchTerm s) (toast s) (showSqlModal s).

Definition setPrompts (l : list PromptRecord) (s : AppState) : AppState :=
  mkState (viewMode s) l (selectedPromptId s) (currentPrompt s) (aiModel s)
    (aiConnected s) (isAnalyzing s) (aiResult s) (dbConnected s)
    (isLoadingPrompts s) (searchTerm s) (toast s) (showSqlModal s).

Definition setSelectedPromptId (i : option Z) (s : AppState) : AppState :=
  mkState (viewMode s) (prompts s) i (currentPrompt s) (aiModel s)
    (aiConnected s) (isAnalyzing s) (aiResult s) (dbConnected s)
    (isLoadingPrompts s) (searchTerm s) (toast s) (showSqlModal s).

Definition setCurrentPrompt (p : PromptRecord) (s : AppState) : AppState :=
  mkState (viewMode s) (prompts s) (selectedPromptId s) p (aiModel s)
    (aiConnected s) (isAnalyzing s) (aiResult s) (dbConnected s)
    (isLoadingPrompts s) (searchTerm s) (toast s) (showSqlModal s).

Definition setAiModel (m : AIModel) (s : AppState) : AppState :=
  mkState (viewMode s) (prompts s) (selectedPromptId s) (currentPrompt s) m
    (aiConnected s) (isAnalyzing s) (aiResult s) (dbConnected s)
    (isLoadingPrompts s) (searchTerm s) (toast s) (showSqlModal s).

Definition setIsAnalyzing (b : bool) (s : AppState) : AppState :=
  mkState (viewMode s) (prompts s) (selectedPromptId s) (currentPrompt s) (aiModel s)
    (aiConnected s) b (aiResult s) (dbConnected s)
    (isLoadingPrompts s) (searchTerm s) (toast s) (showSqlModal s).

Definition setAiResult (r : json) (s : AppState) : AppState :=
  mkState (viewMode s) (prompts s) (selectedPromptId s) (currentPrompt s) (aiModel s)
    (aiConnected s) (isAnalyzing s) r (dbConnected s)
    (isLoadingPrompts s) (searchTerm s) (toast s) (showSqlModal s).

Definition setIsLoadingPrompts (b : bool) (s : AppState) : AppState :=
  mkState (viewMode s) (prompts s) (selectedPromptId s) (currentPrompt s) (aiModel s)
    (aiConnected s) (isAnalyzing s) (aiResult s) (dbConnected s)
    b (searchTerm s) (toast s) (showSqlModal s).

Definition setToast (t : option Toast) (s : AppState) : AppState :=
  mkState (viewMode s) (prompts s) (selectedPromptId s) (currentPrompt s) (aiModel s)
    (aiConnected s) (isAnalyzing s) (aiResult s) (dbConnected s)
    (isLoadingPrompts s) (searchTerm s) t (showSqlModal s).

(** [{...p, title: t}] and [{...p, content: c}]. *)
Definition with_title (t : string) (p : PromptRecord) : PromptRecord :=
  mkPrompt (id p) t (summary p) (content p) (excontext p) (version p) (created_at p).

Definition with_content (c : string) (p : PromptRecord) : PromptRecord :=
  mkPrompt (id p) (title p) (summary p) c (excontext p) (version p) (created_at p).

(** ** [App.tsx]: handlers *)

Module App.

Definition showToast (m : string) (t : ToastType) (s : AppState) : AppState :=
  setToast (Some (mkToast m t)) s.

Definition handleCreateNew (s : AppState) : AppState :=
  setViewMode EDIT
    (setAiResult JNull
       (setSelectedPromptId None
          (setCurrentPrompt emptyPrompt s))).

Definition handleEdit (prompt : PromptRecord) (s : AppState) : AppState :=
  setViewMode EDIT
    (setAiResult JNull
       (setSelectedPromptId (id prompt)
          (setCurrentPrompt prompt s))).

Definition insertTemplate (text : string) (s : AppState) : AppState :=
  let prev := currentPrompt s in
  setCurrentPrompt
    (with_content (content prev ++ (if truthy_string (content prev) then LF else "") ++ text) prev)
    s.

(** *** [handleSave] *)

(** [ver.replace('v', '').split('.')[0]], the text handed to [parseInt]. *)
Definition major_text (ver : string) : string :=
  JsString.split_head "." (JsString.replace "v" "" ver).

(** The local function [nextVersion]. *)
Definition nextVersion (ver : string) : string :=
  let num := JsNumber.parseInt (major_text ver) in
  "v" ++ JsNumber.toString (JsNumber.add1 (if JsNumber.isNaN num then JsNumber.Fin 0 else num)) ++ ".0".

(** [payloadBase] with the [version] that each branch writes over it. *)
Definition payload (s : AppState) (ver : string) : Payload :=
  let p := currentPrompt s in
  mkPayload (id p) (title p) (summary p)
    (if truthy_json (aiResult s) then prop (aiResult s) "optimizedPrompt"
     else Some (JStr (content p)))
    (content p)
    ver
    (created_at p).

(** The storage call that [handleSave] issues: [if (selectedPromptId)] is a
    truthiness test on [number | null]. *)
Definition save_call (s : AppState) : DbCall :=
  match selectedPromptId s with
  | Some i =>
      if negb (i =? 0) then UpdatePrompt i (payload s (nextVersion (version (currentPrompt s))))
      else CreatePrompt (payload s "v1.0")
  | None => CreatePrompt (payload s "v1.0")
  end.

(** The part of [fetchPrompts] that runs before its [await]. *)
Definition fetchPrompts_start (s : AppState) : AppState :=
  setIsLoadingPrompts true s.

(** The part of [fetchPrompts] that runs once [getAllPrompts] has settled. *)
Definition fetchPrompts_finish (outcome : result (list PromptRecord)) (s : AppState) : AppState :=
  setIsLoadingPrompts false
    (match outcome with
     | Ok data => setPrompts data s
     | Throw _ => showToast "无法读取数据库，请检查连接" error s
     end).

(** [handleSave], from the click to the end of its [try]/[catch]; the call
    to [fetchPrompts] that it leaves running has done its first step. *)
Definition handleSave (db : DbService) (s : AppState) : AppState :=
  match db_call db (save_call s) with
  | Ok savedRecord =>
      fetchPrompts_start
        (setViewMode LIST
           (showToast ("保存成功 " ++ version savedRecord) success s))
  | Throw _ => showToast "保存失败" error s
  end.

(** *** [handleAiAnalyze] *)

(** The arguments of one call of [AiService.analyzePrompt]. *)
Record AnalyzeCall : Type := mkCall {
  call_model : AIModel;
  call_promptContent : string;
  call_title : string
}.

(** Up to the [await]: the validation, then the flag and the call. *)
Definition handleAiAnalyze_start (s : AppState) : AppState * option AnalyzeCall :=
  if negb (truthy_string (title (currentPrompt s)))
     || negb (truthy_string (content (currentPrompt s)))
  then (showToast "请填写完整名称和内容" error s, None)
  else (setIsAnalyzing true s,
        Some (mkCall (aiModel s) (content (currentPrompt s)) (title (currentPrompt s)))).

(** After the [await]: [try] continuation, [catch], [finally]. *)
Definition handleAiAnalyze_finish (outcome : result json) (s : AppState) : AppState :=
  setIsAnalyzing false
    (match outcome with
     | Ok r => setViewMode PREVIEW (setAiResult r s)
     | Throw e =>
         showToast (if truthy_string (exn_message e) then exn_message e
                    else "AI 分析失败，请检查配置") error s
     end).

Section WithRuntime.
Context `{RT : Runtime}.

Definition run_call (w : World) (c : AnalyzeCall) : result json :=
  AiService.analyzePrompt w (call_model c) (call_promptContent c) (call_title c).

(** [handleAiAnalyze] run to completion with nothing in between. *)
Definition handleAiAnalyze (w : World) (s : AppState) : AppState :=
  match handleAiAnalyze_start s with
  | (s1, None) => s1
  | (s1, Some c) => handleAiAnalyze_finish (run_call w c) s1
  end.

End WithRuntime.

(** *** What the rendered views offer *)

Definition truthy_id (i : option Z) : bool :=
  match i with
  | Some n => negb (n =? 0)
  | None => false
  end.

Definition ViewMode_eqb (a b : ViewMode) : bool :=
  match a, b with
  | LIST, LIST | EDIT, EDIT | PREVIEW, PREVIEW => true
  | _, _ => false
  end.

(** The clicks and keystrokes of the navigation, the edit view and the
    preview view. *)
Inductive Event : Type :=
  | NavList                      (* sidebar, first button *)
  | NavEdit                      (* sidebar, second button *)
  | NavPreview                   (* sidebar, third button *)
  | SelectModel (m : AIModel)    (* sidebar, model selector *)
  | ClickNew                     (* LIST header *)
  | BackToList                   (* EDIT header arrow *)
  | TypeTitle (v : string)
  | TypeContent (v : string)
  | ClickTemplate (text : string)
  | ClickAnalyze                 (* EDIT, the analysis button *)
  | BackToEdit                   (* PREVIEW header arrow *)
  | ClickRevert                  (* PREVIEW, shown when [aiResult] is truthy *)
  | ClickReanalyze               (* PREVIEW, the second analysis button *)
  | TypePreview (v : string)     (* PREVIEW text area *)
  | ClickSave.                   (* PREVIEW *)

(** Whether the current render shows the control and leaves it enabled:
    the view conditions and the [disabled] attributes of the JSX. *)
Definition enabled (s : AppState) (e : Event) : bool :=
  match e with
  | NavList | NavEdit | SelectModel _ => true
  | NavPreview => truthy_string (content (currentPrompt s))
  | ClickNew => ViewMode_eqb (viewMode s) LIST
  | BackToList | TypeTitle _ | TypeContent _ | ClickTemplate _ =>
      ViewMode_eqb (viewMode s) EDIT
  | ClickAnalyze => ViewMode_eqb (viewMode s) EDIT && negb (isAnalyzing s)
  | BackToEdit | ClickReanalyze | TypePreview _ | ClickSave =>
      ViewMode_eqb (viewMode s) PREVIEW
  | ClickRevert => ViewMode_eqb (viewMode s) PREVIEW && truthy_json (aiResult s)
  end.

(** The [onChange] of the PREVIEW text area: the edit goes to the result
    when there is one, to the draft otherwise.  [{...aiResult,
    optimizedPrompt: v}] copies the own fields of [aiResult] and writes
    [optimizedPrompt]. *)
Fixpoint set_field (key : string) (v : json) (fields : list (string * json))
  : list (string * json) :=
  match fields with
  | [] => [(key, v)]
  | (k, x) :: rest =>
      if String.eqb k key then (k, v) :: rest else (k, x) :: set_field key v rest
  end.

Fixpoint indexed (i : nat) (items : list json) : list (string * json) :=
  match items with
  | [] => []
  | x :: rest => (JsNumber.decimal (Z.of_nat i), x) :: indexed (S i) rest
  end.

(** The characters of a string, one UTF-8 character each ([fuel] is the
    number of bytes at most). *)
Fixpoint characters (fuel : nat) (s : string) : list json :=
  match fuel with
  | O => []
  | S fuel' =>
      if truthy_string s
      then JStr (first_char s)
             :: characters fuel' (JsString.drop (String.length (first_char s)) s)
      else []
  end.

(** The own enumerable properties that a spread copies. *)
Definition own_fields (v : json) : list (string * json) :=
  match v with
  | JObj fields => fields
  | JArr items => indexed 0 items
  | JStr s => indexed 0 (characters (String.length s) s)
  | _ => []
  end.

Definition onPreviewChange (newVal : string) (s : AppState) : AppState :=
  if truthy_json (aiResult s)
  then setAiResult (JObj (set_field "optimizedPrompt" (JStr newVal) (own_fields (aiResult s)))) s
  else setCurrentPrompt (with_content newVal (currentPrompt s)) s.

(** The text shown in the PREVIEW text area. *)
Definition preview_value (s : AppState) : jsval :=
  if truthy_json (aiResult s) then prop (aiResult s) "optimizedPrompt"
  else Some (JStr (content (currentPrompt s))).

(** The handler of each event: the next state and the analysis call that
    it starts, if any.  [ClickSave] runs [handleSave] against [db]. *)
Definition handle (db : DbService) (e : Event) (s : AppState)
  : AppState * option AnalyzeCall :=
  match e with
  | NavList => (setViewMode LIST s, None)
  | NavEdit =>
      (if negb (ViewMode_eqb (viewMode s) EDIT) && negb (truthy_id (selectedPromptId s))
       then handleCreateNew s else setViewMode EDIT s, None)
  | NavPreview => (setViewMode PREVIEW s, None)
  | SelectModel m => (setAiModel m s, None)
  | ClickNew => (handleCreateNew s, None)
  | BackToList => (setViewMode LIST s, None)
  | TypeTitle v => (setCurrentPrompt (with_title v (currentPrompt s)) s, None)
  | TypeContent v => (setCurrentPrompt (with_content v (currentPrompt s)) s, None)
  | ClickTemplate text => (insertTemplate text s, None)
  | ClickAnalyze | ClickReanalyze => handleAiAnalyze_start s
  | BackToEdit => (setViewMode EDIT s, None)
  | ClickRevert => (setAiResult JNull s, None)
  | TypePreview v => (onPreviewChange v s, None)
  | ClickSave => (handleSave db s, None)
  end.

Section EventLoop.
Context `{RT : Runtime}.

(** [aiResult.changeLog.length], as the guard of the change-log panel
    reads it. *)
Definition utf16_length (s : string) : Z :=
  fold_right
    (fun c acc =>
       let n := nat_of_ascii c in
       acc + (if (n <? 128)%nat || (192 <=? n)%nat then 1 else 0)
           + (if (240 <=? n)%nat then 1 else 0))
    0 (list_ascii_of_string s).

Definition get_length (v : jsval) : result jsval :=
  match v with
  | None | Some JNull => Throw (mkExn "TypeError" (type_error_message "length"))
  | Some (JArr items) => Ok (Some (JNum (inject_Z (Z.of_nat (List.length items)))))
  | Some (JStr s) => Ok (Some (JNum (inject_Z (utf16_length s))))
  | Some j => Ok (prop j "length")
  end.

(** [v > 0]. *)
Definition gt_zero (v : jsval) : bool :=
  match v with
  | None | Some JNull => false
  | Some (JBool b) => b
  | Some (JNum q) => negb (Qle_bool q 0)
  | Some other => gt_zero_other other
  end.

(** The condition under which the right sidebar shows the change log:
    [viewMode === PREVIEW && aiResult && aiResult.changeLog.length > 0].
    It is evaluated at every render. *)
Definition changeLog_panel_shown (s : AppState) : result bool :=
  if ViewMode_eqb (viewMode s) PREVIEW && truthy_json (aiResult s) then
    let* len := get_length (prop (aiResult s) "changeLog") in
    Ok (gt_zero len)
  else Ok false.

(** *** The event loop

    The interface state together with the analysis calls that have been
    started and have not settled yet. *)
Record Session : Type := mkSession {
  ui : AppState;
  in_flight : list AnalyzeCall
}.

Definition start (s : AppState) : Session := mkSession s [].

(** One turn of the event loop: an enabled control is used, or a call in
    flight settles and the rest of [handleAiAnalyze] runs. *)
Inductive step (w : World) (db : DbService) : Session -> Session -> Prop :=
  | step_event (e : Event) (x : Session) (s' : AppState) (c : option AnalyzeCall) :
      enabled (ui x) e = true ->
      handle db e (ui x) = (s', c) ->
      step w db x (mkSession s' (match c with
                                  | Some call => (in_flight x ++ [call])%list
                                  | None => in_flight x
                                  end))
  | step_settle (x : Session) (before after : list AnalyzeCall) (c : AnalyzeCall) :
      in_flight x = (before ++ c :: after)%list ->
      step w db x (mkSession (handleAiAnalyze_finish (run_call w c) (ui x))
                             (before ++ after)%list).

Inductive reachable (w : World) (db : DbService) : Session -> Prop :=
  | reach_initial : reachable w db (start initialState)
  | reach_step (x y : Session) :
      reachable w db x -> step w db x y -> reachable w db y.

End EventLoop.

End App.

(** ** [App.tsx]: the remaining handlers and render helpers *)

Module AppRest.

Import App.

Definition setDbConnected (b : bool) (s : AppState) : AppState :=
  mkState (viewMode s) (prompts s) (selectedPromptId s) (currentPrompt s) (aiModel s)
    (aiConnected s) (isAnalyzing s) (aiResult s) b
    (isLoadingPrompts s) (searchTerm s) (toast s) (showSqlModal s).

Definition setAiConnected (b : bool) (s : AppState) : AppState :=
  mkState (viewMode s) (prompts s) (selectedPromptId s) (currentPrompt s) (aiModel s)
    b (isAnalyzing s) (aiResult s) (dbConnected s)
    (isLoadingPrompts s) (searchTerm s) (toast s) (showSqlModal s).

Definition setSearchTerm (t : string) (s : AppState) : AppState :=
  mkState (viewMode s) (prompts s) (selectedPromptId s) (currentPrompt s) (aiModel s)
    (aiConnected s) (isAnalyzing s) (aiResult s) (dbConnected s)
    (isLoadingPrompts s) t (toast s) (showSqlModal s).

(** [checkConnections]: the storage probe, then the probe of the selected
    backend.  A rejected probe leaves the handler at that point: the state
    reached so far is returned with the exception that is left unhandled. *)
Definition checkConnections (testConnection : result bool) (w : World) (s : AppState)
  : AppState * option exn :=
  match testConnection with
  | Throw e => (s, Some e)
  | Ok dbOk =>
      let s1 := setDbConnected dbOk s in
      match AiService.checkConnection w (aiModel s) with
      | Ok aiOk => (setAiConnected aiOk s1, None)
      | Throw e => (s1, Some e)
      end
  end.

(** [fetchPrompts] run to completion. *)
Definition fetchPrompts (db : DbService) (s : AppState) : AppState :=
  fetchPrompts_finish (getAllPrompts db) (fetchPrompts_start s).

(** [handleDelete]: [confirmed] is the answer to [window.confirm],
    [deletePrompt] the storage operation.  After a successful deletion the
    handler starts [fetchPrompts], whose first step is included. *)
Definition handleDelete (confirmed : bool) (deletePrompt : Z -> result unit)
    (i : Z) (s : AppState) : AppState :=
  if negb confirmed then s
  else
    match deletePrompt i with
    | Ok _ => fetchPrompts_start (showToast "删除成功" success s)
    | Throw _ => showToast "删除失败" error s
    end.

(** [String.prototype.includes]. *)
Fixpoint includes (needle hay : string) : bool :=
  JsString.startsWith needle hay
  || match hay with
     | EmptyString => false
     | String _ hay' => includes needle hay'
     end.

Section Filter.

(** [String.prototype.toLowerCase], a function of the runtime. *)
Variable toLowerCase : string -> string.

(** The predicate of the filter: [(p.title || '')] is [p.title], and
    [(searchTerm || '')] is [searchTerm]. *)
Definition matches (term : string) (p : PromptRecord) : bool :=
  includes (toLowerCase term) (toLowerCase (title p)).

(** [filteredPrompts]. *)
Definition filteredPrompts (s : AppState) : list PromptRecord :=
  filter (matches (searchTerm s)) (prompts s).

End Filter.

End AppRest.

(** * Auxiliary notions for the statements *)

Import JsNumber.
Import App.
Import AppRest.

(** The value of a numeral read from the left with accumulator [acc]. *)
Fixpoint uint_value (d : Decimal.uint) (acc : Z) : Z :=
  match d with
  | Decimal.Nil => acc
  | Decimal.D0 l => uint_value l (acc * 10 + 0)
  | Decimal.D1 l => uint_value l (acc * 10 + 1)
  | Decimal.D2 l => uint_value l (acc * 10 + 2)
  | Decimal.D3 l => uint_value l (acc * 10 + 3)
  | Decimal.D4 l => uint_value l (acc * 10 + 4)
  | Decimal.D5 l => uint_value l (acc * 10 + 5)
  | Decimal.D6 l => uint_value l (acc * 10 + 6)
  | Decimal.D7 l => uint_value l (acc * 10 + 7)
  | Decimal.D8 l => uint_value l (acc * 10 + 8)
  | Decimal.D9 l => uint_value l (acc * 10 + 9)
  end.

(** The record that a storage call carries. *)
Definition call_record (c : DbCall) : Payload :=
  match c with
  | CreatePrompt r => r
  | UpdatePrompt _ r => r
  end.

(** A draft with the given identifier and version, for the examples. *)
Definition draft (i : option Z) (ver : string) : PromptRecord :=
  mkPrompt i "A" "" "do X" None ver None.

(** The PREVIEW state in which [p] is being edited, with result [r]. *)
Definition previewing (p : PromptRecord) (r : json) : AppState :=
  setViewMode PREVIEW (setAiResult r (handleEdit p initialState)).

(** A world in which every network operation fails. *)
Definition offline : World :=
  mkWorld None
    (fun _ => Throw (mkExn "TypeError" "Failed to fetch"))
    (fun _ => Throw (mkExn "TypeError" "Failed to fetch")).

(** A world whose managed backend answers with no text. *)
Definition textless : World :=
  mkWorld (Some "key") (fun _ => Ok None)
    (fun _ => Throw (mkExn "TypeError" "Failed to fetch")).

(** A runtime for the examples: [JSON.parse] accepts the text [{}] and
    rejects everything else. *)
Definition plain_runtime : Runtime :=
  {| JSON_parse := fun text =>
       if String.eqb text "{}" then Ok (JObj [])
       else Throw (mkExn "SyntaxError" "Unexpected token");
     ToString_other := fun _ => "";
     type_error_message := fun key =>
       "Cannot read properties of undefined (reading '" ++ key ++ "')";
     gt_zero_other := fun _ => false |}.


Section Failures.
Context `{RT : Runtime}.

(** The ways in which a call of [analyzePrompt] fails, with the exception
    that reaches the caller: the request is rejected (network failure, or an
    error status reported by the SDK), the chat endpoint answers with a
    status that is not a success, the body cannot be read or is not JSON,
    the parsed body has no [choices[0].message.content], or the text of the
    answer is not JSON. *)
Inductive backend_failure (w : World) (c : AnalyzeCall) : exn -> Prop :=
  | gemini_rejected (e : exn) :
      call_model c = GEMINI ->
      generateContent w (AiService.gemini_request (call_promptContent c) (call_title c))
        = Throw e ->
      backend_failure w c e
  | gemini_malformed (text : string) (e : exn) :
      call_model c = GEMINI ->
      generateContent w (AiService.gemini_request (call_promptContent c) (call_title c))
        = Ok (Some text) ->
      text <> "" ->
      JSON_parse text = Throw e ->
      backend_failure w c e
  | qwen_rejected (e : exn) :
      call_model c = QWEN ->
      fetch w (AiService.qwen_request (call_promptContent c) (call_title c)) = Throw e ->
      backend_failure w c e
  | qwen_status (res : HttpResponse) :
      call_model c = QWEN ->
      fetch w (AiService.qwen_request (call_promptContent c) (call_title c)) = Ok res ->
      res_ok res = false ->
      backend_failure w c (mkExn "Error" "Qwen API failed")
  | qwen_unreadable (res : HttpResponse) (e : exn) :
      call_model c = QWEN ->
      fetch w (AiService.qwen_request (call_promptContent c) (call_title c)) = Ok res ->
      res_ok res = true ->
      res_text res = Throw e ->
      backend_failure w c e
  | qwen_body_malformed (res : HttpResponse) (body : string) (e : exn) :
      call_model c = QWEN ->
      fetch w (AiService.qwen_request (call_promptContent c) (call_title c)) = Ok res ->
      res_ok res = true ->
      res_text res = Ok body ->
      JSON_parse body = Throw e ->
      backend_failure w c e
  | qwen_shape (res : HttpResponse) (body : string) (data : json) (e : exn) :
      call_model c = QWEN ->
      fetch w (AiService.qwen_request (call_promptContent c) (call_title c)) = Ok res ->
      res_ok res = true ->
      res_text res = Ok body ->
      JSON_parse body = Ok data ->
      AiService.message_content data = Throw e ->
      backend_failure w c e
  | qwen_answer_malformed (res : HttpResponse) (body : string) (data : json)
      (answer : jsval) (e : exn) :
      call_model c = QWEN ->
      fetch w (AiService.qwen_request (call_promptContent c) (call_title c)) = Ok res ->
      res_ok res = true ->
      res_text res = Ok body ->
      JSON_parse body = Ok data ->
      AiService.message_content data = Ok answer ->
      JSON_parse (ToString answer) = Throw e ->
      backend_failure w c e.

End Failures.

(** The session after an event, as a function. *)
Definition fire (db : DbService) (e : Event) (x : Session) : Session :=
  let (s', c) := handle db e (ui x) in
  mkSession s' (match c with
                | Some call => (in_flight x ++ [call])%list
                | None => in_flight x
                end).

(** The clicks that start two analyses: a new draft, a title, a content,
    the PREVIEW entry of the sidebar, and the re-analysis button twice. *)
Definition double_click : list Event :=
  [ClickNew; TypeTitle "A"; TypeContent "do X"; NavPreview; ClickReanalyze; ClickReanalyze].

(** A text that is empty or starts with a character that is not a decimal
    digit. *)
Definition no_digit_head (t : string) : Prop :=
  match t with
  | EmptyString => True
  | String c _ => digit_value 10 c = None
  end.

(** What a save reads from the state. *)
Definition commit_inputs (s : AppState) : option Z * PromptRecord * json :=
  (selectedPromptId s, currentPrompt s, aiResult s).

(** A body of the chat backend whose answer is the text [{}], its parsed
    form, and a runtime and a world that produce them. *)
Definition sample_body : string :=
  "{" ++ dq ++ "choices" ++ dq ++ ":[{" ++ dq ++ "message" ++ dq ++ ":{"
  ++ dq ++ "content" ++ dq ++ ":" ++ dq ++ "{}" ++ dq ++ "}}]}".

Definition sample_data : json :=
  JObj [("choices", JArr [JObj [("message", JObj [("content", JStr "{}")])]])].

Definition sample_runtime : Runtime :=
  {| JSON_parse := fun text =>
       if String.eqb text sample_body then Ok sample_data
       else if String.eqb text "{}" then Ok (JObj [])
       else Throw (mkExn "SyntaxError" "Unexpected token");
     ToString_other := fun _ => "";
     type_error_message := fun key =>
       "Cannot read properties of undefined (reading '" ++ key ++ "')";
     gt_zero_other := fun _ => false |}.

Definition answering : World :=
  mkWorld None
    (fun _ => Throw (mkExn "TypeError" "Failed to fetch"))
    (fun _ => Ok (mkHttpResponse true (Ok sample_body))).

(** The templates of [ts] inserted one after the other. *)
Definition insert_all (ts : list string) (s : AppState) : AppState :=
  fold_left (fun st t => insertTemplate t st) ts s.

(** * Properties *)

(** ** Numbers below [2^53] *)

Section NumberFacts.

Lemma round_pos_small (z : Z) : z < 2 ^ 53 -> round_pos z = z.
Proof.
  intros Hz. unfold round_pos.
  destruct (Z.ltb_spec z (2 ^ 53)) as [_ | Hge]; [reflexivity | lia].
Qed.

Lemma round_pos_large (z : Z) : 2 ^ 53 <= z -> 2 ^ 53 <= round_pos z.
Proof.
  intros Hz. unfold round_pos.
  destruct (Z.ltb_spec z (2 ^ 53)) as [Hlt | _]; [lia |].
  assert (Hpos : 0 < z) by (assert (0 < 2 ^ 53) by reflexivity; lia).
  assert (Hlog : 53 <= Z.log2 z).
  { replace 53 with (Z.log2 (2 ^ 53)) by reflexivity. now apply Z.log2_le_mono. }
  set (e := Z.log2 z - 52).
  assert (He : 1 <= e) by (unfold e; lia).
  assert (Hq : 2 ^ 52 <= Z.shiftr z e).
  { rewrite Z.shiftr_div_pow2 by lia.
    apply Z.div_le_lower_bound; [apply Z.pow_pos_nonneg; lia |].
    rewrite <- Z.pow_add_r by lia.
    replace (e + 52) with (Z.log2 z) by (unfold e; lia).
    now apply Z.log2_spec. }
  set (q := Z.shiftr z e) in *.
  match goal with |- _ <= Z.shiftl ?t e => set (q' := t) end.
  assert (Hq' : q <= q').
  { unfold q'.
    repeat match goal with |- context [if ?b then _ else _] => destruct b end; lia. }
  clearbody q'.
  rewrite Z.shiftl_mul_pow2 by lia.
  assert (H2e : 2 <= 2 ^ e).
  { replace 2 with (2 ^ 1) at 1 by reflexivity. apply Z.pow_le_mono_r; lia. }
  change (2 ^ 53) with (2 ^ 52 * 2).
  apply Z.mul_le_mono_nonneg; lia.
Qed.

Lemma round_pos_hits_small (v x : Z) : x < 2 ^ 53 -> round_pos v = x -> v = x.
Proof.
  intros Hx Hr.
  destruct (Z.lt_ge_cases v (2 ^ 53)) as [Hv | Hv].
  - now rewrite round_pos_small in Hr.
  - pose proof (round_pos_large v Hv). lia.
Qed.

Lemma shortest_search_small (fuel : nat) (k d x : Z) :
  x < 2 ^ 53 -> shortest_search fuel k d x = x.
Proof.
  intros Hx. revert k.
  induction fuel as [| fuel IH]; intros k; [reflexivity |].
  cbn [shortest_search].
  set (p := 10 ^ (d - k)).
  destruct (Z.eqb_spec (round_pos (x / p * p)) x) as [Hlo | Hlo];
    destruct (Z.eqb_spec (round_pos ((x / p + 1) * p)) x) as [Hhi | Hhi];
    cbn [andb];
    try apply (round_pos_hits_small _ _ Hx) in Hlo;
    try apply (round_pos_hits_small _ _ Hx) in Hhi.
  - repeat match goal with |- context [if ?b then _ else _] => destruct b end;
      assumption.
  - assumption.
  - assumption.
  - apply IH.
Qed.

Lemma decimal_opp (z : Z) : z < 0 -> decimal z = "-" ++ decimal (- z).
Proof.
  destruct z as [| q | q]; intros Hz; try lia. reflexivity.
Qed.

(** Below [2^53] an integer is its own double and prints as its decimal
    numeral. *)
Lemma toString_small (z : Z) : Z.abs z < 2 ^ 53 -> toString (Fin z) = decimal z.
Proof.
  intros Hz. unfold toString.
  destruct (Z.eqb_spec z 0) as [-> | Hnz]; [reflexivity |].
  assert (Hpos : forall x, 0 < x < 2 ^ 53 -> toString_pos x = decimal x).
  { intros x Hx. unfold toString_pos, shortest_value.
    rewrite shortest_search_small by lia.
    destruct (Z.ltb_spec x (10 ^ 21)) as [_ | Hge]; [reflexivity |].
    assert (2 ^ 53 < 10 ^ 21) by reflexivity. lia. }
  destruct (Z.ltb_spec z 0) as [Hneg | Hnonneg].
  - rewrite Hpos by lia. now rewrite (decimal_opp z).
  - apply Hpos. lia.
Qed.

Lemma add1_small (k : Z) : Z.abs (k + 1) < 2 ^ 53 -> add1 (Fin k) = Fin (k + 1).
Proof.
  intros Hk. unfold add1, round_to_double.
  rewrite round_pos_small by assumption.
  destruct (Z.leb_spec (2 ^ 1024) (Z.abs (k + 1))) as [Hbig | _].
  - assert (2 ^ 53 < 2 ^ 1024) by reflexivity. lia.
  - destruct (Z.ltb_spec (k + 1) 0); f_equal; lia.
Qed.

(** *** Reading a decimal numeral back *)

Lemma of_uint_acc_value (d : Decimal.uint) (acc : positive) :
  Z.pos (Pos.of_uint_acc d acc) = uint_value d (Z.pos acc).
Proof.
  revert acc.
  induction d as [| l IH | l IH | l IH | l IH | l IH | l IH | l IH | l IH | l IH | l IH];
    intros acc; cbn [Pos.of_uint_acc uint_value]; [reflexivity | ..];
    rewrite IH; f_equal; lia.
Qed.

Lemma of_uint_value (d : Decimal.uint) : Z.of_N (Pos.of_uint d) = uint_value d 0.
Proof.
  induction d as [| l IH | l IH | l IH | l IH | l IH | l IH | l IH | l IH | l IH | l IH];
    cbn [Pos.of_uint uint_value Z.of_N]; [reflexivity | exact IH | ..];
    apply of_uint_acc_value.
Qed.

Lemma read_digits_numeral (d : Decimal.uint) (acc : Z) (seen : bool) :
  d <> Decimal.Nil ->
  read_digits 10 (NilEmpty.string_of_uint d) acc seen = Some (uint_value d acc).
Proof.
  revert acc seen.
  induction d as [| l IH | l IH | l IH | l IH | l IH | l IH | l IH | l IH | l IH | l IH];
    intros acc seen Hd; [congruence | ..];
    cbn [NilEmpty.string_of_uint read_digits uint_value];
    (destruct l as [| l' | l' | l' | l' | l' | l' | l' | l' | l' | l'];
     [ reflexivity | apply IH; discriminate .. ]).
Qed.

Lemma split_head_numeral (d : Decimal.uint) (rest : string) :
  JsString.split_head "." (NilEmpty.string_of_uint d ++ String "." rest)
  = NilEmpty.string_of_uint d.
Proof.
  induction d as [| l IH | l IH | l IH | l IH | l IH | l IH | l IH | l IH | l IH | l IH];
    [ reflexivity | .. ];
    cbn [NilEmpty.string_of_uint append JsString.split_head];
    cbn [JsString.startsWith Ascii.eqb Bool.eqb andb];
    now rewrite IH.
Qed.

Lemma trim_start_none (s : string) :
  JsString.white_space_width s = 0%nat -> JsString.trim_start s = s.
Proof.
  intros Hw. unfold JsString.trim_start.
  destruct (String.length s) as [| n]; cbn [JsString.trim_start_fuel];
    [reflexivity | now rewrite Hw].
Qed.

(** A numeral starts with a digit: no white space, no sign, no [0x]. *)
Lemma numeral_plain (d : Decimal.uint) :
  let s := NilEmpty.string_of_uint d in
  JsString.white_space_width s = 0%nat
  /\ (forall c r, s = String c r -> c <> "-"%char /\ c <> "+"%char)
  /\ JsString.startsWith "0x" s = false
  /\ JsString.startsWith "0X" s = false.
Proof.
  destruct d as [| l | l | l | l | l | l | l | l | l | l]; cbn zeta;
    (split; [reflexivity |]);
    (split; [intros c r Hs; try discriminate Hs;
             injection Hs as <- _; split; discriminate |]);
    try (split; reflexivity).
  destruct l; split; reflexivity.
Qed.

Lemma parseInt_plain (s : string) :
  JsString.white_space_width s = 0%nat ->
  (forall c r, s = String c r -> c <> "-"%char /\ c <> "+"%char) ->
  JsString.startsWith "0x" s = false ->
  JsString.startsWith "0X" s = false ->
  parseInt s = match read_digits 10 s 0 false with
               | None => NaN
               | Some m => round_to_double m
               end.
Proof.
  intros Hw Hsign Hx HX. unfold parseInt.
  rewrite (trim_start_none s Hw).
  assert (Hs : match s with
               | String "-" r => (true, r)
               | String "+" r => (false, r)
               | _ => (false, s)
               end = (false, s)).
  { destruct s as [| c r]; [reflexivity |].
    destruct (Hsign c r eq_refl) as [Hm Hp].
    destruct c as [[] [] [] [] [] [] [] []]; try reflexivity; congruence. }
  rewrite Hs, Hx, HX. reflexivity.
Qed.

(** [parseInt] reads the numeral of a positive integer below [2^53] back
    exactly. *)
Lemma parseInt_decimal (q : positive) :
  Z.pos q < 2 ^ 53 -> parseInt (decimal (Z.pos q)) = Fin (Z.pos q).
Proof.
  intros Hq.
  assert (Hval : uint_value (Pos.to_uint q) 0 = Z.pos q).
  { rewrite <- of_uint_value, DecimalPos.Unsigned.of_to. reflexivity. }
  pose proof (DecimalPos.Unsigned.to_uint_nonnil q) as Hnil.
  unfold decimal. cbn [Z.to_int NilEmpty.string_of_int].
  destruct (numeral_plain (Pos.to_uint q)) as (Hw & Hsign & Hx & HX).
  rewrite (parseInt_plain _ Hw Hsign Hx HX).
  rewrite (read_digits_numeral _ 0 false Hnil), Hval.
  unfold round_to_double. cbn [Z.abs].
  rewrite round_pos_small by assumption.
  destruct (Z.leb_spec (2 ^ 1024) (Z.pos q)) as [Hbig | _].
  - assert (2 ^ 53 < 2 ^ 1024) by reflexivity. lia.
  - reflexivity.
Qed.

End NumberFacts.

(** ** The commit: version and content *)

Section Commit.

Lemma major_text_canonical (d : Decimal.uint) :
  major_text ("v" ++ NilEmpty.string_of_uint d ++ ".0") = NilEmpty.string_of_uint d.
Proof.
  unfold major_text.
  change ("v" ++ NilEmpty.string_of_uint d ++ ".0")
    with (String "v" (NilEmpty.string_of_uint d ++ String "." "0")).
  change (JsString.replace "v" "" (String "v" ?y)) with y.
  apply split_head_numeral.
Qed.

Lemma nextVersion_parsed (ver : string) (k : Z) :
  parseInt (major_text ver) = Fin k -> Z.abs (k + 1) < 2 ^ 53 ->
  nextVersion ver = "v" ++ decimal (k + 1) ++ ".0".
Proof.
  intros Hparse Hk. unfold nextVersion. rewrite Hparse. cbn [isNaN].
  now rewrite add1_small, toString_small.
Qed.

Lemma nextVersion_NaN (ver : string) :
  parseInt (major_text ver) = NaN -> nextVersion ver = "v1.0".
Proof.
  intros Hparse. unfold nextVersion. now rewrite Hparse.
Qed.

Lemma nextVersion_canonical (k : Z) :
  0 <= k -> k + 1 < 2 ^ 53 ->
  nextVersion ("v" ++ decimal k ++ ".0") = "v" ++ decimal (k + 1) ++ ".0".
Proof.
  intros Hk Hlt.
  destruct k as [| q | q]; [reflexivity | | lia].
  apply nextVersion_parsed; [| lia].
  unfold decimal at 1. cbn [Z.to_int NilEmpty.string_of_int].
  rewrite major_text_canonical.
  apply (parseInt_decimal q). lia.
Qed.

Lemma save_call_update (s : AppState) (i : Z) :
  selectedPromptId s = Some i -> i <> 0 ->
  save_call s = UpdatePrompt i (payload s (nextVersion (version (currentPrompt s)))).
Proof.
  intros Hid Hnz. unfold save_call. rewrite Hid.
  destruct (Z.eqb_spec i 0); [contradiction | reflexivity].
Qed.

Lemma save_call_record (s : AppState) :
  exists ver, call_record (save_call s) = payload s ver.
Proof.
  unfold save_call.
  destruct (selectedPromptId s) as [i |]; [destruct (negb (i =? 0)) |];
    eexists; reflexivity.
Qed.

End Commit.

(** C1, as amended.  On the update path (a non-zero identifier is
    selected) the version sent to storage is [v<k+1>.0], where [k] is the
    integer that [parseInt] reads from the draft's version, provided [k + 1]
    is below [2^53] in absolute value; a version with no integer to read
    gives [v1.0]; in particular a version [v<k>.0] with [0 <= k] and
    [k + 1 < 2^53] gives [v<k+1>.0].  On the create path (no identifier
    selected) the version is [v1.0] whatever the draft holds.  [save_call]
    is a total function: computing the version never raises. *)
Theorem C1_version_bump (s : AppState) :
  (forall i k,
      selectedPromptId s = Some i -> i <> 0 ->
      parseInt (major_text (version (currentPrompt s))) = Fin k ->
      Z.abs (k + 1) < 2 ^ 53 ->
      save_call s = UpdatePrompt i (payload s ("v" ++ decimal (k + 1) ++ ".0")))
  /\ (forall i,
      selectedPromptId s = Some i -> i <> 0 ->
      parseInt (major_text (version (currentPrompt s))) = NaN ->
      save_call s = UpdatePrompt i (payload s "v1.0"))
  /\ (forall i k,
      selectedPromptId s = Some i -> i <> 0 ->
      0 <= k -> k + 1 < 2 ^ 53 ->
      version (currentPrompt s) = "v" ++ decimal k ++ ".0" ->
      save_call s = UpdatePrompt i (payload s ("v" ++ decimal (k + 1) ++ ".0")))
  /\ (selectedPromptId s = None ->
      save_call s = CreatePrompt (payload s "v1.0")).
Proof.
  repeat split.
  - intros i k Hid Hnz Hparse Hk.
    rewrite (save_call_update s i Hid Hnz). now rewrite (nextVersion_parsed _ k).
  - intros i Hid Hnz Hparse.
    rewrite (save_call_update s i Hid Hnz). now rewrite nextVersion_NaN.
  - intros i k Hid Hnz Hk Hlt Hver.
    rewrite (save_call_update s i Hid Hnz). now rewrite Hver, nextVersion_canonical.
  - intros Hid. unfold save_call. now rewrite Hid.
Qed.

(** C1 at concrete drafts: record 7 at [v3.0] goes to [v4.0], record 7 with
    the version [draft] goes to [v1.0], and a new draft carrying [v9.0] is
    created as [v1.0]. *)
Lemma C1_version_bump_witness :
  p_version (call_record (save_call (previewing (draft (Some 7) "v3.0") JNull))) = "v4.0"
  /\ p_version (call_record (save_call (previewing (draft (Some 7) "draft") JNull))) = "v1.0"
  /\ p_version (call_record (save_call (previewing (draft None "v9.0") JNull))) = "v1.0".
Proof.
  pose proof (C1_version_bump (previewing (draft (Some 7) "v3.0") JNull)) as (_ & _ & H3 & _).
  pose proof (C1_version_bump (previewing (draft (Some 7) "draft") JNull)) as (_ & H2 & _ & _).
  pose proof (C1_version_bump (previewing (draft None "v9.0") JNull)) as (_ & _ & _ & H4).
  rewrite (H3 7 3), (H2 7), H4;
    try reflexivity; try lia; try discriminate.
  repeat split; reflexivity.
Defined.

(** C1 as stated fails twice.  With identifier [0] selected the test
    [if (selectedPromptId)] takes the create path, and the record at [v3.0]
    is sent as [v1.0], not [v4.0].  At [k = 2^53] the sum [k + 1] is not a
    double: it rounds back to [2^53], and the version sent is again
    [v9007199254740992.0]. *)
Lemma C1_counterexample :
  (let s := previewing (draft (Some 0) "v3.0") JNull in
   selectedPromptId s = Some 0
   /\ parseInt (major_text (version (currentPrompt s))) = Fin 3
   /\ save_call s = CreatePrompt (payload s "v1.0")
   /\ p_version (call_record (save_call s)) <> "v" ++ decimal (3 + 1) ++ ".0")
  /\
  (let s := previewing (draft (Some 7) "v9007199254740992.0") JNull in
   selectedPromptId s = Some 7
   /\ parseInt (major_text (version (currentPrompt s))) = Fin (2 ^ 53)
   /\ save_call s = UpdatePrompt 7 (payload s "v9007199254740992.0")
   /\ p_version (call_record (save_call s)) <> "v" ++ decimal (2 ^ 53 + 1) ++ ".0").
Proof.
  split; cbv zeta; repeat split; try reflexivity; vm_compute; discriminate.
Qed.

(** C2.  Whatever the session state, the record sent to storage has as
    [content] the result's [optimizedPrompt] when a result is present
    ([aiResult] is truthy) and the draft's own content otherwise, and as
    [excontext] the draft's content as it stands at the save.  So
    [excontext] is the optimized text only when the draft's content is that
    very text. *)
Theorem C2_content_and_excontext (s : AppState) :
  let r := call_record (save_call s) in
  (truthy_json (aiResult s) = true ->
     p_content r = prop (aiResult s) "optimizedPrompt")
  /\ (truthy_json (aiResult s) = false ->
     p_content r = Some (JStr (content (currentPrompt s))))
  /\ p_excontext r = content (currentPrompt s)
  /\ (forall optimized,
        truthy_json (aiResult s) = true ->
        prop (aiResult s) "optimizedPrompt" = Some (JStr optimized) ->
        p_excontext r = optimized -> content (currentPrompt s) = optimized).
Proof.
  destruct (save_call_record s) as [ver Hrec]. cbv zeta. rewrite Hrec.
  unfold payload. cbn [p_content p_excontext].
  repeat split.
  - now intros ->.
  - now intros ->.
  - now intros optimized _ _ Heq.
Qed.

(** C2 on the two scenarios of the specification: a new draft ["do X"]
    with no result, and record 7 at [v3.0] with the result
    ["do X, improved"]. *)
Lemma C2_content_and_excontext_witness :
  (let s := previewing (draft None "v1.0") JNull in
   truthy_json (aiResult s) = false
   /\ p_content (call_record (save_call s)) = Some (JStr "do X")
   /\ p_excontext (call_record (save_call s)) = "do X")
  /\
  (let s := previewing (draft (Some 7) "v3.0")
              (JObj [("optimizedPrompt", JStr "do X, improved"); ("changeLog", JArr [])]) in
   truthy_json (aiResult s) = true
   /\ p_content (call_record (save_call s)) = Some (JStr "do X, improved")
   /\ p_excontext (call_record (save_call s)) = "do X").
Proof.
  split; cbv zeta.
  - destruct (C2_content_and_excontext (previewing (draft None "v1.0") JNull))
      as (_ & Hc & He & _).
    split; [reflexivity |]. split.
    + rewrite (Hc eq_refl). reflexivity.
    + rewrite He. reflexivity.
  - destruct (C2_content_and_excontext
                (previewing (draft (Some 7) "v3.0")
                   (JObj [("optimizedPrompt", JStr "do X, improved"); ("changeLog", JArr [])])))
      as (Hc & _ & He & _).
    split; [reflexivity |]. split.
    + rewrite (Hc eq_refl). reflexivity.
    + rewrite He. reflexivity.
Defined.

(** ** Triggering the analysis *)

Lemma truthy_string_spec (s : string) : truthy_string s = true <-> s <> "".
Proof.
  unfold truthy_string. destruct (String.eqb_spec s ""); cbn; split; congruence.
Qed.

Lemma handleAiAnalyze_start_refused (s : AppState) :
  title (currentPrompt s) = "" \/ content (currentPrompt s) = "" ->
  handleAiAnalyze_start s = (showToast "请填写完整名称和内容" error s, None).
Proof.
  intros Hempty. unfold handleAiAnalyze_start.
  destruct (truthy_string (title (currentPrompt s))) eqn:Ht; [| reflexivity].
  destruct (truthy_string (content (currentPrompt s))) eqn:Hc; [| reflexivity].
  apply truthy_string_spec in Ht, Hc. tauto.
Qed.

Lemma handleAiAnalyze_start_accepted (s : AppState) :
  title (currentPrompt s) <> "" -> content (currentPrompt s) <> "" ->
  handleAiAnalyze_start s
  = (setIsAnalyzing true s,
     Some (mkCall (aiModel s) (content (currentPrompt s)) (title (currentPrompt s)))).
Proof.
  intros Ht Hc. unfold handleAiAnalyze_start.
  apply truthy_string_spec in Ht, Hc. now rewrite Ht, Hc.
Qed.

(** C5.  From either control that triggers the analysis (the button of the
    EDIT view, the one of the PREVIEW view): if the draft's title or
    content is empty, the handler only shows the validation notice: no call
    is started, the [isAnalyzing] flag is not touched, and the backend is
    never consulted; a call is started only when both are non-empty. *)
Theorem C5_analysis_guard (db : DbService) (s : AppState) (e : Event) :
  e = ClickAnalyze \/ e = ClickReanalyze ->
  (title (currentPrompt s) = "" \/ content (currentPrompt s) = "" ->
     handle db e s = (showToast "请填写完整名称和内容" error s, None)
     /\ isAnalyzing (fst (handle db e s)) = isAnalyzing s
     /\ forall (rt : Runtime) (w : World),
          handleAiAnalyze w s = showToast "请填写完整名称和内容" error s)
  /\ (forall c, snd (handle db e s) = Some c ->
        title (currentPrompt s) <> "" /\ content (currentPrompt s) <> "")
  /\ (title (currentPrompt s) <> "" -> content (currentPrompt s) <> "" ->
        exists c, snd (handle db e s) = Some c).
Proof.
  intros He.
  assert (Hh : handle db e s = handleAiAnalyze_start s) by (destruct He; now subst e).
  rewrite Hh. repeat split.
  - now apply handleAiAnalyze_start_refused.
  - rewrite handleAiAnalyze_start_refused by assumption. reflexivity.
  - intros rt w. unfold handleAiAnalyze.
    rewrite handleAiAnalyze_start_refused by assumption. reflexivity.
  - destruct (String.eqb_spec (title (currentPrompt s)) "") as [Ht | Ht]; [| assumption].
    rewrite handleAiAnalyze_start_refused in H by tauto. discriminate.
  - destruct (String.eqb_spec (content (currentPrompt s)) "") as [Hc | Hc]; [| assumption].
    rewrite handleAiAnalyze_start_refused in H by tauto. discriminate.
  - intros Ht Hc. rewrite handleAiAnalyze_start_accepted by assumption.
    eexists. reflexivity.
Qed.

(** C5 on a draft with a title and no content, in the EDIT view: the
    click on the analysis button gives the validation notice and no call. *)
Lemma C5_analysis_guard_witness :
  let db := mkDb (fun _ => Ok (draft None "")) (Ok []) in
  let s := setCurrentPrompt (with_title "A" emptyPrompt) (handleCreateNew initialState) in
  (title (currentPrompt s) = "" \/ content (currentPrompt s) = "")
  /\ handle db ClickAnalyze s = (showToast "请填写完整名称和内容" error s, None)
  /\ isAnalyzing (fst (handle db ClickAnalyze s)) = false.
Proof.
  cbv zeta.
  destruct (C5_analysis_guard (mkDb (fun _ => Ok (draft None "")) (Ok []))
              (setCurrentPrompt (with_title "A" emptyPrompt) (handleCreateNew initialState))
              ClickAnalyze (or_introl eq_refl)) as (Hrefused & _ & _).
  destruct (Hrefused (or_intror eq_refl)) as (Hh & Hflag & _).
  split; [right; reflexivity |]. split; [exact Hh | rewrite Hflag; reflexivity].
Defined.

(** ** Revert and re-analysis *)

(** C6.  A successful analysis stores its result and leaves the draft as
    it was, and so does an edit made in PREVIEW while a result is shown;
    revert sets the result to [null] and leaves the draft as it was, so the
    PREVIEW text area shows the draft's content again and edits go to the
    draft; and a save after revert sends the draft's content as [content]:
    nothing of the result is kept. *)
Theorem C6_revert_then_save (db : DbService) (s : AppState) (r : json) :
  currentPrompt (handleAiAnalyze_finish (Ok r) s) = currentPrompt s
  /\ (forall v, truthy_json (aiResult s) = true ->
        currentPrompt (onPreviewChange v s) = currentPrompt s)
  /\ (let s' := fst (handle db ClickRevert s) in
      aiResult s' = JNull
      /\ currentPrompt s' = currentPrompt s
      /\ preview_value s' = Some (JStr (content (currentPrompt s)))
      /\ (forall v, currentPrompt (onPreviewChange v s')
                    = with_content v (currentPrompt s))
      /\ p_content (call_record (save_call s')) = Some (JStr (content (currentPrompt s)))
      /\ p_excontext (call_record (save_call s')) = content (currentPrompt s)).
Proof.
  split; [reflexivity |]. split.
  - intros v Hshown. unfold onPreviewChange. now rewrite Hshown.
  - cbv zeta. cbn [handle fst].
    destruct (save_call_record (setAiResult JNull s)) as [ver Hrec].
    rewrite Hrec. repeat split.
Qed.

(** C6 on record 7 with a result shown: after revert the save sends
    ["do X"]. *)
Lemma C6_revert_then_save_witness :
  let db := mkDb (fun _ => Ok (draft None "")) (Ok []) in
  let s := previewing (draft (Some 7) "v3.0")
             (JObj [("optimizedPrompt", JStr "do X, improved"); ("changeLog", JArr [])]) in
  enabled s ClickRevert = true
  /\ p_content (call_record (save_call s)) = Some (JStr "do X, improved")
  /\ p_content (call_record (save_call (fst (handle db ClickRevert s)))) = Some (JStr "do X").
Proof.
  cbv zeta.
  destruct (C6_revert_then_save (mkDb (fun _ => Ok (draft None "")) (Ok []))
              (previewing (draft (Some 7) "v3.0")
                 (JObj [("optimizedPrompt", JStr "do X, improved"); ("changeLog", JArr [])]))
              JNull) as (_ & _ & _ & _ & _ & _ & Hsave & _).
  split; [reflexivity |]. split; [reflexivity |]. rewrite Hsave. reflexivity.
Defined.

(** C7.  The call started from the PREVIEW view carries the draft's
    current content (and title) as the text to analyse, and that text is
    what the request to either backend contains; the result being shown,
    edited or not, plays no part: replacing it by any other value starts
    the same call. *)
Theorem C7_reanalyze_source (db : DbService) (s : AppState) :
  (forall c, snd (handle db ClickReanalyze s) = Some c ->
     call_promptContent c = content (currentPrompt s)
     /\ g_text (AiService.gemini_request (call_promptContent c) (call_title c))
        = AiService.systemPrompt ++ LF ++ LF
          ++ "Title: " ++ title (currentPrompt s) ++ LF
          ++ "Content:" ++ LF ++ content (currentPrompt s)
     /\ option_map c_messages
          (h_body (AiService.qwen_request (call_promptContent c) (call_title c)))
        = Some [("system", AiService.systemPrompt);
                ("user", "Title: " ++ title (currentPrompt s) ++ LF
                         ++ "Content:" ++ LF ++ content (currentPrompt s))])
  /\ (forall r, snd (handle db ClickReanalyze (setAiResult r s))
                = snd (handle db ClickReanalyze s)).
Proof.
  split.
  - intros c Hc. cbn [handle] in Hc. unfold handleAiAnalyze_start in Hc.
    destruct (negb _ || negb _); cbn [snd] in Hc; [discriminate |].
    injection Hc as <-. repeat split.
  - intros r. cbn [handle]. unfold handleAiAnalyze_start.
    cbn [setAiResult currentPrompt aiModel].
    destruct (negb _ || negb _); reflexivity.
Qed.

(** C7 on a session that shows an edited result: the call carries the
    draft's ["do X"], not the text of the result. *)
Lemma C7_reanalyze_source_witness :
  let s := previewing (draft (Some 7) "v3.0")
             (JObj [("optimizedPrompt", JStr "edited by hand"); ("changeLog", JArr [])]) in
  snd (handle (mkDb (fun _ => Ok (draft None "")) (Ok [])) ClickReanalyze s)
    = Some (mkCall GEMINI "do X" "A")
  /\ call_promptContent (mkCall GEMINI "do X" "A") = content (currentPrompt s).
Proof.
  cbv zeta. split; [reflexivity |].
  apply (C7_reanalyze_source (mkDb (fun _ => Ok (draft None "")) (Ok [])) _).
  reflexivity.
Defined.

(** ** A failing save *)

(** C9.  When the storage call of a save is rejected, [handleSave] only
    shows the error notice: the view, the draft, the result and every other
    piece of state are what they were. *)
Theorem C9_save_failure (db : DbService) (s : AppState) (e : exn) :
  db_call db (save_call s) = Throw e ->
  handleSave db s = setToast (Some (mkToast "保存失败" error)) s
  /\ viewMode (handleSave db s) = viewMode s
  /\ currentPrompt (handleSave db s) = currentPrompt s
  /\ aiResult (handleSave db s) = aiResult s
  /\ selectedPromptId (handleSave db s) = selectedPromptId s.
Proof.
  intros Hfail. unfold handleSave. rewrite Hfail. repeat split.
Qed.

(** C9 on a storage that rejects every call, from the PREVIEW view. *)
Lemma C9_save_failure_witness :
  let db := mkDb (fun _ => Throw (mkExn "Error" "offline")) (Throw (mkExn "Error" "offline")) in
  let s := previewing (draft (Some 7) "v3.0") (JObj [("optimizedPrompt", JStr "do X, improved")]) in
  viewMode (handleSave db s) = PREVIEW
  /\ toast (handleSave db s) = Some (mkToast "保存失败" error).
Proof.
  cbv zeta.
  destruct (C9_save_failure
              (mkDb (fun _ => Throw (mkExn "Error" "offline")) (Throw (mkExn "Error" "offline")))
              (previewing (draft (Some 7) "v3.0") (JObj [("optimizedPrompt", JStr "do X, improved")]))
              (mkExn "Error" "offline") eq_refl) as (Hs & Hv & _).
  split; [rewrite Hv | rewrite Hs]; reflexivity.
Defined.

(** ** The availability check *)

(** C8.  [checkConnection] resolves with a boolean for either backend and
    any behaviour of the outside world: whatever its body throws is turned
    into [false].  For the chat backend a rejected [fetch] gives [false]
    and a response gives its [ok] flag, [false] for every status that is
    not a success; for the managed backend the answer is whether the key is
    present and non-empty. *)
Theorem C8_checkConnection_never_throws (w : World) (model : AIModel) :
  (exists b, AiService.checkConnection w model = Ok b)
  /\ (forall e, AiService.checkConnection_body w model = Throw e ->
        AiService.checkConnection w model = Ok false)
  /\ (forall e, fetch w AiService.models_request = Throw e ->
        AiService.checkConnection w QWEN = Ok false)
  /\ (forall res, fetch w AiService.models_request = Ok res ->
        AiService.checkConnection w QWEN = Ok (res_ok res))
  /\ (env_API_KEY w = None -> AiService.checkConnection w GEMINI = Ok false).
Proof.
  unfold AiService.checkConnection. split; [| split; [| split; [| split]]].
  - destruct (AiService.checkConnection_body w model) as [b | e]; eexists; reflexivity.
  - intros e Hbody. now rewrite Hbody.
  - intros e Hfetch. cbn [AiService.checkConnection_body]. now rewrite Hfetch.
  - intros res Hfetch. cbn [AiService.checkConnection_body]. now rewrite Hfetch.
  - intros Hkey. cbn [AiService.checkConnection_body]. now rewrite Hkey.
Qed.

(** C8 with the network down: the chat backend is reported unavailable. *)
Lemma C8_checkConnection_never_throws_witness :
  AiService.checkConnection_body offline QWEN = Throw (mkExn "TypeError" "Failed to fetch")
  /\ AiService.checkConnection offline QWEN = Ok false.
Proof.
  split; [reflexivity |].
  destruct (C8_checkConnection_never_throws offline QWEN) as (_ & Hcatch & _).
  apply (Hcatch (mkExn "TypeError" "Failed to fetch")). reflexivity.
Defined.

(** ** A failing analysis *)

Section AnalysisFailure.
Context `{RT : Runtime}.

(** Each failure reaches the caller as the thrown exception. *)
Lemma backend_failure_throws (w : World) (c : AnalyzeCall) (e : exn) :
  backend_failure w c e -> run_call w c = Throw e.
Proof.
  intros Hfail. unfold run_call, AiService.analyzePrompt.
  destruct Hfail as [e Hm Hg | text e Hm Hg Htext Hp | e Hm Hf | res Hm Hf Hok
                    | res e Hm Hf Hok Hbody | res body e Hm Hf Hok Hbody Hp
                    | res body data e Hm Hf Hok Hbody Hp Hshape
                    | res body data answer e Hm Hf Hok Hbody Hp Hshape Hanswer];
    rewrite Hm; cbn [bind].
  - now rewrite Hg.
  - rewrite Hg. cbn [bind].
    apply truthy_string_spec in Htext. now rewrite Htext.
  - now rewrite Hf.
  - rewrite Hf. cbn [bind]. now rewrite Hok.
  - rewrite Hf. cbn [bind]. rewrite Hok. cbn [negb]. now rewrite Hbody.
  - rewrite Hf. cbn [bind]. rewrite Hok. cbn [negb]. rewrite Hbody. cbn [bind].
    now rewrite Hp.
  - rewrite Hf. cbn [bind]. rewrite Hok. cbn [negb]. rewrite Hbody. cbn [bind].
    rewrite Hp. cbn [bind]. now rewrite Hshape.
  - rewrite Hf. cbn [bind]. rewrite Hok. cbn [negb]. rewrite Hbody. cbn [bind].
    rewrite Hp. cbn [bind]. rewrite Hshape. cbn [bind]. exact Hanswer.
Qed.

End AnalysisFailure.




(** ** An answer with no text *)

(** C10.  With the managed backend, a title and a content, and an answer
    that carries no text (absent or empty), [analyzePrompt] parses the
    literal [{}] and resolves with the empty object; [handleAiAnalyze]
    stores it and switches to PREVIEW with no notice.  Neither
    [optimizedPrompt] nor [changeLog] is defined on the stored result.  The
    render of the PREVIEW view then evaluates [aiResult.changeLog.length]
    and throws a [TypeError]. *)
Theorem C10_empty_answer `{RT : Runtime} (w : World) (s : AppState) :
  JSON_parse "{}" = Ok (JObj []) ->
  aiModel s = GEMINI ->
  title (currentPrompt s) <> "" ->
  content (currentPrompt s) <> "" ->
  (generateContent w
     (AiService.gemini_request (content (currentPrompt s)) (title (currentPrompt s))) = Ok None
   \/ generateContent w
        (AiService.gemini_request (content (currentPrompt s)) (title (currentPrompt s)))
      = Ok (Some "")) ->
  let s' := handleAiAnalyze w s in
  AiService.analyzePrompt w GEMINI (content (currentPrompt s)) (title (currentPrompt s))
    = Ok (JObj [])
  /\ s' = setIsAnalyzing false (setViewMode PREVIEW (setAiResult (JObj []) s))
  /\ prop (aiResult s') "optimizedPrompt" = None
  /\ prop (aiResult s') "changeLog" = None
  /\ toast s' = toast s
  /\ preview_value s' = None
  /\ changeLog_panel_shown s' = Throw (mkExn "TypeError" (type_error_message "length")).
Proof.
  intros Hparse Hmodel Ht Hc Hanswer. cbv zeta.
  assert (Hcall : AiService.analyzePrompt w GEMINI
                    (content (currentPrompt s)) (title (currentPrompt s)) = Ok (JObj [])).
  { unfold AiService.analyzePrompt.
    destruct Hanswer as [-> | ->]; cbn [bind truthy_string String.eqb negb]; exact Hparse. }
  assert (Hrun : handleAiAnalyze w s
                 = setIsAnalyzing false (setViewMode PREVIEW (setAiResult (JObj []) s))).
  { unfold handleAiAnalyze. rewrite handleAiAnalyze_start_accepted by assumption.
    unfold run_call. cbn [call_model call_promptContent call_title].
    rewrite Hmodel, Hcall. reflexivity. }
  split; [exact Hcall |]. split; [exact Hrun |].
  rewrite Hrun. repeat split.
Qed.

(** C10 on the draft ["do X"] titled ["A"]. *)
Lemma C10_empty_answer_witness :
  let s := setCurrentPrompt (draft None "v1.0") (handleCreateNew initialState) in
  let s' := @handleAiAnalyze plain_runtime textless s in
  aiResult s' = JObj [] /\ viewMode s' = PREVIEW
  /\ @changeLog_panel_shown plain_runtime s'
     = Throw (mkExn "TypeError" "Cannot read properties of undefined (reading 'length')").
Proof.
  cbv zeta.
  destruct (@C10_empty_answer plain_runtime textless
              (setCurrentPrompt (draft None "v1.0") (handleCreateNew initialState))
              eq_refl eq_refl)
    as (_ & Hrun & _ & _ & _ & _ & Hrender);
    [discriminate | discriminate | left; reflexivity |].
  rewrite Hrun in *. split; [reflexivity |]. split; [reflexivity | exact Hrender].
Defined.

(** ** Two analyses at once *)

Section TwoInFlight.
Context `{RT : Runtime}.

Lemma reachable_fire (w : World) (db : DbService) (e : Event) (x : Session) :
  reachable w db x -> enabled (ui x) e = true -> reachable w db (fire db e x).
Proof.
  intros Hx He. apply (reach_step w db x); [exact Hx |].
  unfold fire. destruct (handle db e (ui x)) as [s' c] eqn:Hh.
  now apply (step_event w db e x s' c).
Qed.

(** The EDIT view does disable its button while a call is in flight. *)
Lemma edit_button_disabled (s : AppState) :
  isAnalyzing s = true -> enabled s ClickAnalyze = false.
Proof.
  intros Hflag. cbn [enabled]. rewrite Hflag. apply andb_false_r.
Qed.

(** The PREVIEW view never disables its own. *)
Lemma preview_button_enabled (s : AppState) :
  viewMode s = PREVIEW -> enabled s ClickReanalyze = true.
Proof.
  intros Hview. cbn [enabled]. now rewrite Hview.
Qed.

End TwoInFlight.

(** C4 fails on the code.  Whatever the backends and the storage do, the
    session reached by [double_click] has two analysis calls in flight,
    the second started while [isAnalyzing] was set: the button of the
    PREVIEW view has no [disabled] attribute, and [handleAiAnalyze] does not
    read the flag.  (Only the button of the EDIT view is disabled by it.) *)
Theorem C4_two_calls_in_flight `{RT : Runtime} (w : World) (db : DbService) :
  let x := fold_left (fun x e => fire db e x) double_click (start initialState) in
  reachable w db x
  /\ in_flight x = [mkCall GEMINI "do X" "A"; mkCall GEMINI "do X" "A"]
  /\ isAnalyzing (ui x) = true
  /\ enabled (ui x) ClickReanalyze = true
  /\ enabled (ui x) ClickAnalyze = false.
Proof.
  cbv zeta. split; [| repeat split].
  unfold double_click. cbn [fold_left].
  repeat (apply reachable_fire; [| reflexivity]).
  apply reach_initial.
Qed.

(** * Further properties of the code *)

(** ** Version numbers *)

Section VersionFacts.

Lemma round_to_double_small (z : Z) : Z.abs z < 2 ^ 53 -> round_to_double z = Fin z.
Proof.
  intros Hz. unfold round_to_double.
  rewrite round_pos_small by assumption.
  destruct (Z.leb_spec (2 ^ 1024) (Z.abs z)) as [Hbig | _].
  - assert (2 ^ 53 < 2 ^ 1024) by reflexivity. lia.
  - destruct (Z.ltb_spec z 0); f_equal; lia.
Qed.

Lemma numeral_value (q : positive) : uint_value (Pos.to_uint q) 0 = Z.pos q.
Proof.
  rewrite <- of_uint_value, DecimalPos.Unsigned.of_to. reflexivity.
Qed.

(** The numeral of a positive integer does not start with [0]. *)
Lemma numeral_head (q : positive) (l : Decimal.uint) : Pos.to_uint q <> Decimal.D0 l.
Proof.
  intros Hd.
  assert (Hnorm : Decimal.unorm (Pos.to_uint q) = Pos.to_uint q).
  { rewrite <- (DecimalPos.Unsigned.to_of (Pos.to_uint q)).
    now rewrite DecimalPos.Unsigned.of_to. }
  rewrite Hd in Hnorm. unfold Decimal.unorm in Hnorm.
  destruct (Decimal.nzhead (Decimal.D0 l)) as [| u | u | u | u | u | u | u | u | u | u] eqn:Hhead;
    try discriminate Hnorm.
  - injection Hnorm as <-. now apply (DecimalPos.Unsigned.to_uint_nonzero q).
  - now apply DecimalFacts.nzhead_nonzero in Hhead.
Qed.

Lemma parseInt_negative (q : positive) :
  Z.pos q < 2 ^ 53 -> parseInt (decimal (Z.neg q)) = Fin (Z.neg q).
Proof.
  intros Hq. unfold decimal. cbn [Z.to_int NilEmpty.string_of_int].
  destruct (numeral_plain (Pos.to_uint q)) as (_ & _ & Hx & HX). cbv zeta in Hx, HX.
  unfold parseInt.
  rewrite trim_start_none by reflexivity.
  cbv beta iota. rewrite Hx, HX. cbv beta iota. cbn [orb].
  rewrite (read_digits_numeral _ 0 false (DecimalPos.Unsigned.to_uint_nonnil q)).
  rewrite numeral_value.
  apply round_to_double_small. cbn [Z.opp Z.abs]. lia.
Qed.

(** [parseInt] reads the numeral of an integer back. *)
Lemma parseInt_decimal_Z (z : Z) : Z.abs z < 2 ^ 53 -> parseInt (decimal z) = Fin z.
Proof.
  destruct z as [| q | q]; intros Hz.
  - reflexivity.
  - apply parseInt_decimal. lia.
  - apply parseInt_negative. lia.
Qed.

Lemma major_text_decimal (z : Z) : major_text ("v" ++ decimal z ++ ".0") = decimal z.
Proof.
  destruct z as [| q | q].
  - reflexivity.
  - apply major_text_canonical.
  - unfold decimal. cbn [Z.to_int NilEmpty.string_of_int].
    unfold major_text.
    change ("v" ++ String "-" (NilEmpty.string_of_uint (Pos.to_uint q)) ++ ".0")
      with (String "v" (String "-" (NilEmpty.string_of_uint (Pos.to_uint q) ++ String "." "0"))).
    change (JsString.replace "v" "" (String "v" ?y)) with y.
    change (JsString.split_head "." (String "-" ?y))
      with (String "-" (JsString.split_head "." y)).
    now rewrite split_head_numeral.
Qed.

Lemma split_head_numeral_app (d : Decimal.uint) (suffix : string) :
  JsString.split_head "." (NilEmpty.string_of_uint d ++ suffix)
  = NilEmpty.string_of_uint d ++ JsString.split_head "." suffix.
Proof.
  induction d as [| l IH | l IH | l IH | l IH | l IH | l IH | l IH | l IH | l IH | l IH];
    [ reflexivity | .. ];
    cbn [NilEmpty.string_of_uint append JsString.split_head];
    cbn [JsString.startsWith Ascii.eqb Bool.eqb andb];
    now rewrite IH.
Qed.

Lemma split_head_no_digit_head (suffix : string) :
  no_digit_head suffix -> no_digit_head (JsString.split_head "." suffix).
Proof.
  destruct suffix as [| c r]; [trivial |]. intros Hc.
  cbn [JsString.split_head].
  destruct (JsString.startsWith "." (String c r)); [exact I | exact Hc].
Qed.

Lemma read_digits_numeral_seen (d : Decimal.uint) (t : string) (acc : Z) :
  no_digit_head t ->
  read_digits 10 (NilEmpty.string_of_uint d ++ t) acc true = Some (uint_value d acc).
Proof.
  intros Ht. revert acc.
  induction d as [| l IH | l IH | l IH | l IH | l IH | l IH | l IH | l IH | l IH | l IH];
    intros acc; cbn [NilEmpty.string_of_uint append uint_value];
    try (cbn [read_digits]; apply IH).
  destruct t as [| c r]; [reflexivity |].
  cbn [read_digits]. cbn [no_digit_head] in Ht. now rewrite Ht.
Qed.

Lemma read_digits_numeral_app (d : Decimal.uint) (t : string) :
  d <> Decimal.Nil -> no_digit_head t ->
  read_digits 10 (NilEmpty.string_of_uint d ++ t) 0 false = Some (uint_value d 0).
Proof.
  intros Hd Ht.
  destruct d as [| l | l | l | l | l | l | l | l | l | l]; [congruence | ..];
    cbn [NilEmpty.string_of_uint append uint_value read_digits];
    now apply read_digits_numeral_seen.
Qed.

(** [parseInt] reads a positive numeral and stops where the digits stop. *)
Lemma parseInt_numeral_prefix (q : positive) (t : string) :
  Z.pos q < 2 ^ 53 -> no_digit_head t ->
  parseInt (decimal (Z.pos q) ++ t) = Fin (Z.pos q).
Proof.
  intros Hq Ht. unfold decimal. cbn [Z.to_int NilEmpty.string_of_int].
  pose proof (DecimalPos.Unsigned.to_uint_nonnil q) as Hnil.
  pose proof (numeral_head q) as Hhead.
  pose proof (numeral_value q) as Hval.
  revert Hnil Hhead Hval. generalize (Pos.to_uint q). intros d Hnil Hhead Hval.
  rewrite parseInt_plain.
  - rewrite read_digits_numeral_app by assumption. rewrite Hval.
    apply round_to_double_small. cbn [Z.abs]. exact Hq.
  - destruct d; [congruence | reflexivity ..].
  - intros c r Hs.
    destruct d; [congruence | ..]; injection Hs as <- _; split; discriminate.
  - destruct d; [congruence | now destruct (Hhead d) | reflexivity ..].
  - destruct d; [congruence | now destruct (Hhead d) | reflexivity ..].
Qed.

End VersionFacts.

(** X1.  The version written by an update reads back as the next major
    number: if [parseInt] reads [k] from the draft's version (and [k + 1]
    is below [2^53] in absolute value), it reads [k + 1] from the version
    that [nextVersion] returns; if it reads no number, it reads [1] from
    the new version.  So an update never decrements and never skips. *)
Theorem X1_version_chain (ver : string) :
  (forall k, parseInt (major_text ver) = Fin k -> Z.abs (k + 1) < 2 ^ 53 ->
     parseInt (major_text (nextVersion ver)) = Fin (k + 1))
  /\ (parseInt (major_text ver) = NaN ->
     parseInt (major_text (nextVersion ver)) = Fin 1).
Proof.
  split.
  - intros k Hparse Hk.
    rewrite (nextVersion_parsed ver k Hparse Hk), major_text_decimal.
    now apply parseInt_decimal_Z.
  - intros Hparse. now rewrite nextVersion_NaN.
Qed.

(** X1 on a negative and on an unreadable version. *)
Lemma X1_version_chain_witness :
  parseInt (major_text (nextVersion "v-7.2")) = Fin (-6)
  /\ parseInt (major_text (nextVersion "latest")) = Fin 1.
Proof.
  destruct (X1_version_chain "v-7.2") as [Hnum _].
  destruct (X1_version_chain "latest") as [_ Hnan].
  split; [apply (Hnum (-7)); [reflexivity | reflexivity] | apply Hnan; reflexivity].
Defined.

(** X2.  Starting from [v1.0], [n] applications of [nextVersion] give
    [v<n+1>.0], as long as [n + 1] is below [2^53]. *)
Theorem X2_version_iterate (n : nat) :
  Z.of_nat n + 1 < 2 ^ 53 ->
  Nat.iter n nextVersion "v1.0" = "v" ++ decimal (Z.of_nat n + 1) ++ ".0".
Proof.
  induction n as [| n IH]; intros Hn; [reflexivity |].
  change (Nat.iter (S n) nextVersion "v1.0")
    with (nextVersion (Nat.iter n nextVersion "v1.0")).
  rewrite IH by lia.
  rewrite nextVersion_canonical by lia.
  do 3 f_equal. lia.
Qed.

(** X2 for three updates. *)
Lemma X2_version_iterate_witness :
  nextVersion (nextVersion (nextVersion "v1.0")) = "v4.0".
Proof.
  apply (X2_version_iterate 3). reflexivity.
Defined.

(** X3.  Only the digits after the [v] count: for a positive [k] with
    [k + 1] below [2^53], whatever follows the numeral of [k] (a minor
    number, a suffix, nothing at all), provided it does not start with a
    digit, [nextVersion] returns [v<k+1>.0].  The minor component is not
    carried over. *)
Theorem X3_version_suffix (q : positive) (suffix : string) :
  Z.pos q + 1 < 2 ^ 53 -> no_digit_head suffix ->
  nextVersion ("v" ++ decimal (Z.pos q) ++ suffix) = "v" ++ decimal (Z.pos q + 1) ++ ".0".
Proof.
  intros Hq Hsuffix. apply nextVersion_parsed; [| lia].
  unfold major_text.
  change ("v" ++ decimal (Z.pos q) ++ suffix) with (String "v" (decimal (Z.pos q) ++ suffix)).
  change (JsString.replace "v" "" (String "v" ?y)) with y.
  unfold decimal at 1. cbn [Z.to_int NilEmpty.string_of_int].
  rewrite split_head_numeral_app.
  apply (parseInt_numeral_prefix q); [lia |].
  now apply split_head_no_digit_head.
Qed.

(** X3 on a version with a minor number and a tag. *)
Lemma X3_version_suffix_witness :
  nextVersion "v12.7-beta" = "v13.0" /\ nextVersion "v3" = "v4.0".
Proof.
  split.
  - apply (X3_version_suffix 12 ".7-beta"); reflexivity.
  - apply (X3_version_suffix 3 ""); [reflexivity | exact I].
Defined.

(** ** What handlers leave alone *)

Section CommitInputs.

Lemma save_call_inputs (s s' : AppState) :
  commit_inputs s = commit_inputs s' -> save_call s = save_call s'.
Proof.
  unfold commit_inputs. intros Heq. injection Heq as Hid Hdraft Hresult.
  unfold save_call, payload. now rewrite Hid, Hdraft, Hresult.
Qed.

Lemma handleSave_inputs (db : DbService) (s : AppState) :
  commit_inputs (handleSave db s) = commit_inputs s.
Proof.
  unfold handleSave. destruct (db_call db (save_call s)); reflexivity.
Qed.

Lemma fetchPrompts_finish_inputs (outcome : result (list PromptRecord)) (s : AppState) :
  commit_inputs (fetchPrompts_finish outcome s) = commit_inputs s.
Proof.
  destruct outcome; reflexivity.
Qed.

Lemma handleDelete_inputs (confirmed : bool) (del : Z -> result unit) (i : Z) (s : AppState) :
  commit_inputs (handleDelete confirmed del i s) = commit_inputs s.
Proof.
  unfold handleDelete. destruct confirmed; cbn [negb]; [| reflexivity].
  destruct (del i); reflexivity.
Qed.

End CommitInputs.

(** X4.  A save does not change what the next save sends.  Whether the
    storage call succeeds or fails, and whether or not the refresh of the
    listing has settled, the draft, the selected identifier and the result
    are what they were, so a second save issues the same storage call: after
    an update the draft still carries the old version and the same new
    version is sent again; after a create no identifier is selected and
    another record is created. *)
Theorem X4_save_then_save (db : DbService) (s : AppState)
    (listing : result (list PromptRecord)) :
  save_call (handleSave db s) = save_call s
  /\ save_call (fetchPrompts_finish listing (handleSave db s)) = save_call s
  /\ currentPrompt (handleSave db s) = currentPrompt s
  /\ selectedPromptId (handleSave db s) = selectedPromptId s
  /\ aiResult (handleSave db s) = aiResult s.
Proof.
  pose proof (handleSave_inputs db s) as Hsave.
  pose proof (fetchPrompts_finish_inputs listing (handleSave db s)) as Hfetch.
  split; [now apply save_call_inputs |].
  split; [apply save_call_inputs; congruence |].
  unfold commit_inputs in Hsave. injection Hsave as Hid Hdraft Hresult.
  repeat split; assumption.
Qed.

(** X5.  [handleDelete] touches neither the draft, nor the selection, nor
    the result, nor the view.  Declined, it does nothing and ignores the
    storage; on a storage failure only the notice changes.  So after the
    record being edited is deleted, a save is still an update of that
    identifier. *)
Theorem X5_delete_keeps_draft (confirmed : bool) (del : Z -> result unit)
    (i : Z) (s : AppState) :
  save_call (handleDelete confirmed del i s) = save_call s
  /\ viewMode (handleDelete confirmed del i s) = viewMode s
  /\ (confirmed = false -> handleDelete confirmed del i s = s)
  /\ (forall e, confirmed = true -> del i = Throw e ->
        handleDelete confirmed del i s = setToast (Some (mkToast "删除失败" error)) s)
  /\ (confirmed = true -> del i = Ok tt ->
        handleDelete confirmed del i s
        = setIsLoadingPrompts true (setToast (Some (mkToast "删除成功" success)) s)).
Proof.
  split; [apply save_call_inputs, handleDelete_inputs |].
  unfold handleDelete. repeat split.
  - destruct confirmed; cbn [negb]; [| reflexivity]. destruct (del i); reflexivity.
  - now intros ->.
  - intros e -> Hdel. cbn [negb]. now rewrite Hdel.
  - intros -> Hdel. cbn [negb]. now rewrite Hdel.
Qed.

(** X5 on the record being edited: after its deletion a save still updates
    identifier 7. *)
Lemma X5_delete_keeps_draft_witness :
  let s := previewing (draft (Some 7) "v3.0") JNull in
  handleDelete false (fun _ => Ok tt) 7 s = s
  /\ save_call (handleDelete true (fun _ => Ok tt) 7 s)
     = UpdatePrompt 7 (payload s "v4.0").
Proof.
  cbv zeta.
  destruct (X5_delete_keeps_draft false (fun _ => Ok tt) 7
              (previewing (draft (Some 7) "v3.0") JNull)) as (_ & _ & Hdeclined & _).
  destruct (X5_delete_keeps_draft true (fun _ => Ok tt) 7
              (previewing (draft (Some 7) "v3.0") JNull)) as (Hsave & _).
  split; [now apply Hdeclined | rewrite Hsave; reflexivity].
Defined.

(** X6.  The sidebar entry of the edit view starts a new draft when no
    identifier is selected and the view is not EDIT: the draft and the
    result are discarded.  With an identifier selected, or already in EDIT,
    it keeps them; the back arrow of PREVIEW always keeps them. *)
Theorem X6_sidebar_edit (db : DbService) (s : AppState) :
  (viewMode s <> EDIT -> truthy_id (selectedPromptId s) = false ->
     fst (handle db NavEdit s) = handleCreateNew s
     /\ currentPrompt (fst (handle db NavEdit s)) = emptyPrompt
     /\ aiResult (fst (handle db NavEdit s)) = JNull)
  /\ (viewMode s = EDIT \/ truthy_id (selectedPromptId s) = true ->
     fst (handle db NavEdit s) = setViewMode EDIT s)
  /\ fst (handle db BackToEdit s) = setViewMode EDIT s.
Proof.
  cbn [handle fst]. split; [| split; [| reflexivity]].
  - intros Hview Hid.
    assert (Hnew : (if negb (ViewMode_eqb (viewMode s) EDIT)
                       && negb (truthy_id (selectedPromptId s))
                    then handleCreateNew s else setViewMode EDIT s)
                   = handleCreateNew s).
    { rewrite Hid. destruct (viewMode s); try reflexivity. contradiction. }
    rewrite Hnew. repeat split.
  - intros [Hview | Hid].
    + now rewrite Hview.
    + rewrite Hid. now rewrite andb_false_r.
Qed.

(** X6 on an unsaved draft shown in PREVIEW: the sidebar entry empties it,
    the back arrow does not. *)
Lemma X6_sidebar_edit_witness :
  let db := mkDb (fun _ => Ok (draft None "")) (Ok []) in
  let s := previewing (draft None "v1.0") JNull in
  content (currentPrompt (fst (handle db NavEdit s))) = ""
  /\ content (currentPrompt (fst (handle db BackToEdit s))) = "do X".
Proof.
  cbv zeta.
  destruct (X6_sidebar_edit (mkDb (fun _ => Ok (draft None "")) (Ok []))
              (previewing (draft None "v1.0") JNull)) as (Hnew & _ & Hback).
  destruct Hnew as (_ & Hdraft & _); [discriminate | reflexivity |].
  rewrite Hdraft, Hback. split; reflexivity.
Defined.

(** ** The event loop *)

Section EventLoopFacts.
Context `{RT : Runtime}.

(** An event that starts no call leaves the flag as it is; one that starts
    a call sets it. *)
Lemma handle_flag (db : DbService) (e : Event) (s s' : AppState) (c : option AnalyzeCall) :
  handle db e s = (s', c) ->
  match c with
  | Some _ => isAnalyzing s' = true
  | None => isAnalyzing s' = isAnalyzing s
  end.
Proof.
  destruct e; cbn [handle]; intros Hh;
    try (injection Hh as <- <-; reflexivity).
  - injection Hh as <- <-.
    destruct (negb _ && negb _); reflexivity.
  - unfold handleAiAnalyze_start in Hh.
    destruct (negb _ || negb _); injection Hh as <- <-; reflexivity.
  - unfold handleAiAnalyze_start in Hh.
    destruct (negb _ || negb _); injection Hh as <- <-; reflexivity.
  - injection Hh as <- <-. unfold onPreviewChange.
    destruct (truthy_json (aiResult s)); reflexivity.
  - injection Hh as <- <-. unfold handleSave.
    destruct (db_call db (save_call s)); reflexivity.
Qed.

Lemma flag_implies_in_flight (w : World) (db : DbService) (x : Session) :
  reachable w db x -> isAnalyzing (ui x) = true -> in_flight x <> [].
Proof.
  induction 1 as [| x y Hx IH Hstep]; [discriminate |].
  destruct Hstep as [e x s' c Hen Hh | x before after c Hin]; cbn [ui in_flight].
  - pose proof (handle_flag db e (ui x) s' c Hh) as Hflag.
    destruct c as [call |].
    + intros _. now destruct (in_flight x).
    + intros Hs'. apply IH. congruence.
  - discriminate.
Qed.

Lemma double_click_reachable (w : World) (db : DbService) :
  let x := fold_left (fun x e => fire db e x) double_click (start initialState) in
  reachable w db x
  /\ in_flight x = [mkCall GEMINI "do X" "A"; mkCall GEMINI "do X" "A"].
Proof.
  cbv zeta. split; [| reflexivity].
  unfold double_click. cbn [fold_left].
  repeat (apply reachable_fire; [| reflexivity]).
  apply reach_initial.
Qed.

End EventLoopFacts.

(** X7.  In every session that the event loop can reach, a set
    [isAnalyzing] flag means that some analysis call is in flight.  The
    converse does not hold: the flag is cleared as soon as one call settles,
    so after the two clicks of [double_click] and the settling of one call,
    whatever its outcome, the flag is clear while a call is still in
    flight. *)
Theorem X7_flag_and_calls `{RT : Runtime} (w : World) (db : DbService) :
  (forall x, reachable w db x -> isAnalyzing (ui x) = true -> in_flight x <> [])
  /\ (exists x, reachable w db x
                /\ isAnalyzing (ui x) = false
                /\ in_flight x = [mkCall GEMINI "do X" "A"]).
Proof.
  split; [apply flag_implies_in_flight |].
  destruct (double_click_reachable w db) as [Hreach Hcalls].
  eexists. split.
  - eapply reach_step; [exact Hreach |].
    apply (step_settle w db _ [] [mkCall GEMINI "do X" "A"] (mkCall GEMINI "do X" "A")).
    exact Hcalls.
  - cbn [ui in_flight app]. split; reflexivity.
Qed.

(** X7 on the session after one click on the re-analysis button. *)
Lemma X7_flag_and_calls_witness :
  let db := mkDb (fun _ => Ok (draft None "")) (Ok []) in
  let x := fold_left (fun x e => fire db e x)
             [ClickNew; TypeTitle "A"; TypeContent "do X"; NavPreview; ClickReanalyze]
             (start initialState) in
  isAnalyzing (ui x) = true /\ in_flight x <> [].
Proof.
  cbv zeta. split; [reflexivity |].
  destruct (@X7_flag_and_calls plain_runtime offline
              (mkDb (fun _ => Ok (draft None "")) (Ok []))) as [Hinv _].
  apply Hinv; [| reflexivity].
  cbn [fold_left].
  repeat (apply reachable_fire; [| reflexivity]).
  apply reach_initial.
Defined.

(** X8.  A call that settles with a result is applied to whatever the
    session holds at that moment: the view becomes PREVIEW and the result is
    stored, while the draft and the selection are left as they are, whether
    or not the draft is still the text that was analysed.  A save from there
    sends the optimized text of that result under the current draft. *)
Theorem X8_late_result `{RT : Runtime} (w : World) (db : DbService) (x : Session)
    (before after : list AnalyzeCall) (c : AnalyzeCall) (r : json) :
  in_flight x = (before ++ c :: after)%list ->
  run_call w c = Ok r ->
  exists y,
    step w db x y
    /\ in_flight y = (before ++ after)%list
    /\ viewMode (ui y) = PREVIEW
    /\ aiResult (ui y) = r
    /\ currentPrompt (ui y) = currentPrompt (ui x)
    /\ selectedPromptId (ui y) = selectedPromptId (ui x)
    /\ (truthy_json r = true ->
          p_content (call_record (save_call (ui y))) = prop r "optimizedPrompt"
          /\ p_title (call_record (save_call (ui y))) = title (currentPrompt (ui x))
          /\ p_excontext (call_record (save_call (ui y))) = content (currentPrompt (ui x))).
Proof.
  intros Hin Hrun.
  exists (mkSession (handleAiAnalyze_finish (run_call w c) (ui x)) (before ++ after)%list).
  split; [now apply step_settle |].
  rewrite Hrun. cbn [ui in_flight].
  do 5 (split; [reflexivity |]).
  intros Hr.
  destruct (save_call_record (handleAiAnalyze_finish (Ok r) (ui x))) as [ver Hrec].
  rewrite Hrec. unfold payload.
  cbn [p_content p_title p_excontext handleAiAnalyze_finish setIsAnalyzing setViewMode
       setAiResult aiResult currentPrompt].
  rewrite Hr. repeat split.
Qed.

(** X8 on a concrete session: the analysis of draft ["A"] is started, the
    user goes back to the listing and starts a new draft titled ["B"], then
    the call settles.  The result of ["A"] is shown in PREVIEW over draft
    ["B"], and a save creates a record titled ["B"] with that text. *)
Lemma X8_late_result_witness :
  let db := mkDb (fun _ => Ok (draft None "")) (Ok []) in
  let improved := JObj [("optimizedPrompt", JStr "do X, improved"); ("changeLog", JArr [])] in
  let w := mkWorld (Some "key") (fun _ => Ok (Some "improved")) (fun _ => Ok (mkHttpResponse false (Ok ""))) in
  let rt := {| JSON_parse := fun _ => Ok improved; ToString_other := fun _ => "";
               type_error_message := fun key => key; gt_zero_other := fun _ => false |} in
  let x := fold_left (fun x e => fire db e x)
             [ClickNew; TypeTitle "A"; TypeContent "do X"; ClickAnalyze;
              BackToList; ClickNew; TypeTitle "B"]
             (start initialState) in
  in_flight x = [mkCall GEMINI "do X" "A"]
  /\ exists y, @step rt w db x y
               /\ viewMode (ui y) = PREVIEW
               /\ save_call (ui y)
                  = CreatePrompt (mkPayload None "B" "" (Some (JStr "do X, improved")) "" "v1.0" None).
Proof.
  cbv zeta. split; [reflexivity |].
  destruct (@X8_late_result
              {| JSON_parse := fun _ => Ok (JObj [("optimizedPrompt", JStr "do X, improved"); ("changeLog", JArr [])]);
                 ToString_other := fun _ => "";
                 type_error_message := fun key => key; gt_zero_other := fun _ => false |}
              (mkWorld (Some "key") (fun _ => Ok (Some "improved")) (fun _ => Ok (mkHttpResponse false (Ok ""))))
              (mkDb (fun _ => Ok (draft None "")) (Ok []))
              (fold_left (fun x e => fire (mkDb (fun _ => Ok (draft None "")) (Ok [])) e x)
                 [ClickNew; TypeTitle "A"; TypeContent "do X"; ClickAnalyze;
                  BackToList; ClickNew; TypeTitle "B"]
                 (start initialState))
              [] [] (mkCall GEMINI "do X" "A")
              (JObj [("optimizedPrompt", JStr "do X, improved"); ("changeLog", JArr [])])
              eq_refl eq_refl)
    as (y & Hstep & _ & Hview & Hres & Hdraft & Hid & _).
  exists y. split; [exact Hstep |]. split; [exact Hview |].
  unfold save_call, payload. rewrite Hres, Hdraft, Hid. reflexivity.
Defined.

(** ** The PREVIEW view *)

Section PreviewFacts.

Lemma assoc_set_field_same (key : string) (v : json) (fields : list (string * json)) :
  assoc key (set_field key v fields) = Some v.
Proof.
  induction fields as [| [k x] rest IH]; cbn [set_field assoc].
  - now rewrite String.eqb_refl.
  - destruct (String.eqb k key) eqn:Hk; cbn [assoc]; now rewrite Hk.
Qed.

Lemma assoc_set_field_other (key other : string) (v : json) (fields : list (string * json)) :
  other <> key -> assoc other (set_field key v fields) = assoc other fields.
Proof.
  intros Hneq.
  induction fields as [| [k x] rest IH]; cbn [set_field assoc].
  - destruct (String.eqb_spec key other); [congruence | reflexivity].
  - destruct (String.eqb_spec k key) as [-> | Hk]; cbn [assoc].
    + destruct (String.eqb_spec key other); [congruence | reflexivity].
    + destruct (String.eqb k other); [reflexivity | exact IH].
Qed.

End PreviewFacts.

(** X9.  What is typed in the PREVIEW text area is what the area shows and
    what a save sends as [content], also when it is the empty text.  With a
    result shown the edit goes to the result: the draft is untouched, the
    result stays present and, when it is an object, its other fields (the
    change log) are kept.  With no result the edit goes to the draft, and a
    save then sends the typed text as [excontext] too. *)
Theorem X9_preview_edit (v : string) (s : AppState) :
  let s' := onPreviewChange v s in
  preview_value s' = Some (JStr v)
  /\ p_content (call_record (save_call s')) = Some (JStr v)
  /\ selectedPromptId s' = selectedPromptId s
  /\ (truthy_json (aiResult s) = true ->
        currentPrompt s' = currentPrompt s
        /\ truthy_json (aiResult s') = true
        /\ forall fields key, aiResult s = JObj fields -> key <> "optimizedPrompt" ->
             prop (aiResult s') key = prop (aiResult s) key)
  /\ (truthy_json (aiResult s) = false ->
        aiResult s' = aiResult s
        /\ currentPrompt s' = with_content v (currentPrompt s)
        /\ p_excontext (call_record (save_call s')) = v).
Proof.
  cbv zeta.
  destruct (save_call_record (onPreviewChange v s)) as [ver Hrec]. rewrite Hrec.
  unfold payload, preview_value, onPreviewChange. cbn [p_content p_excontext].
  destruct (truthy_json (aiResult s)) eqn:Hshown;
    cbn [setAiResult setCurrentPrompt aiResult currentPrompt selectedPromptId
         truthy_json prop with_content content].
  - rewrite assoc_set_field_same.
    split; [reflexivity |]. split; [reflexivity |]. split; [reflexivity |].
    split; [| discriminate].
    intros _. split; [reflexivity |]. split; [reflexivity |].
    intros fields key Hobj Hkey. rewrite Hobj. cbn [own_fields prop].
    now apply assoc_set_field_other.
  - rewrite Hshown.
    split; [reflexivity |]. split; [reflexivity |]. split; [reflexivity |].
    split; [discriminate |].
    intros _. repeat split.
Qed.

(** X9 on a shown result whose text is cleared: the save sends the empty
    text as content and keeps the draft as raw context. *)
Lemma X9_preview_edit_witness :
  let s := previewing (draft (Some 7) "v3.0")
             (JObj [("optimizedPrompt", JStr "do X, improved"); ("changeLog", JArr [JStr "a"])]) in
  truthy_json (aiResult s) = true
  /\ aiResult (onPreviewChange "" s)
     = JObj [("optimizedPrompt", JStr ""); ("changeLog", JArr [JStr "a"])]
  /\ p_content (call_record (save_call (onPreviewChange "" s))) = Some (JStr "")
  /\ content (currentPrompt (onPreviewChange "" s)) = "do X".
Proof.
  cbv zeta.
  destruct (X9_preview_edit ""
              (previewing (draft (Some 7) "v3.0")
                 (JObj [("optimizedPrompt", JStr "do X, improved");
                        ("changeLog", JArr [JStr "a"])])))
    as (_ & Hsave & _ & Hshown & _).
  destruct (Hshown eq_refl) as (Hdraft & _).
  split; [reflexivity |]. split; [reflexivity |]. split; [exact Hsave |].
  rewrite Hdraft. reflexivity.
Defined.

(** X10.  The guard of the change-log panel.  Outside PREVIEW, or with no
    result, the panel is hidden and nothing is read.  In PREVIEW with a
    result whose [changeLog] is an array, the panel is shown exactly when
    the array is not empty.  In PREVIEW with a result that has no
    [changeLog] (or [null]), reading its [length] throws a [TypeError]. *)
Theorem X10_changeLog_guard `{RT : Runtime} (s : AppState) :
  (viewMode s <> PREVIEW \/ truthy_json (aiResult s) = false ->
     changeLog_panel_shown s = Ok false)
  /\ (forall entries,
        viewMode s = PREVIEW ->
        prop (aiResult s) "changeLog" = Some (JArr entries) ->
        changeLog_panel_shown s = Ok (negb (Nat.eqb (List.length entries) 0)))
  /\ (viewMode s = PREVIEW -> truthy_json (aiResult s) = true ->
        prop (aiResult s) "changeLog" = None
        \/ prop (aiResult s) "changeLog" = Some JNull ->
        changeLog_panel_shown s = Throw (mkExn "TypeError" (type_error_message "length"))).
Proof.
  unfold changeLog_panel_shown. split; [| split].
  - intros [Hview | Hnone].
    + destruct (viewMode s); try reflexivity. contradiction.
    + rewrite Hnone. now rewrite andb_false_r.
  - intros entries Hview Hlog. rewrite Hview.
    assert (Hshown : truthy_json (aiResult s) = true).
    { destruct (aiResult s); try discriminate Hlog; reflexivity. }
    rewrite Hshown, Hlog. cbn [ViewMode_eqb andb get_length bind gt_zero].
    destruct entries; reflexivity.
  - intros Hview Hshown Hlog. rewrite Hview, Hshown.
    destruct Hlog as [-> | ->]; reflexivity.
Qed.

(** X10 on a well-typed result with one entry, and after revert. *)
Lemma X10_changeLog_guard_witness :
  let s := previewing (draft (Some 7) "v3.0")
             (JObj [("optimizedPrompt", JStr "do X, improved"); ("changeLog", JArr [JStr "a"])]) in
  @changeLog_panel_shown plain_runtime s = Ok true
  /\ @changeLog_panel_shown plain_runtime (setAiResult JNull s) = Ok false.
Proof.
  cbv zeta. split.
  - destruct (@X10_changeLog_guard plain_runtime
                (previewing (draft (Some 7) "v3.0")
                   (JObj [("optimizedPrompt", JStr "do X, improved");
                          ("changeLog", JArr [JStr "a"])]))) as (_ & Harray & _).
    apply (Harray [JStr "a"]); reflexivity.
  - destruct (@X10_changeLog_guard plain_runtime
                (setAiResult JNull
                   (previewing (draft (Some 7) "v3.0")
                      (JObj [("optimizedPrompt", JStr "do X, improved");
                             ("changeLog", JArr [JStr "a"])])))) as (Hhidden & _).
    apply Hhidden. right. reflexivity.
Defined.

(** ** Templates *)

Section TemplateFacts.

Lemma append_assoc (a b c : string) : (a ++ b) ++ c = a ++ b ++ c.
Proof.
  induction a as [| x a IH]; cbn [append]; [reflexivity | now rewrite IH].
Qed.

Lemma append_nonempty_r (a b : string) : b <> "" -> a ++ b <> "".
Proof.
  destruct a; cbn [append]; [trivial | discriminate].
Qed.

Lemma concat_absorb (a t : string) (ts : list string) :
  String.concat LF ((a ++ LF ++ t) :: ts) = a ++ LF ++ String.concat LF (t :: ts).
Proof.
  destruct ts as [| u us]; cbn [String.concat]; [reflexivity |].
  now rewrite !append_assoc.
Qed.

Lemma insertTemplate_content (t : string) (s : AppState) :
  content (currentPrompt (insertTemplate t s))
  = if String.eqb (content (currentPrompt s)) "" then t
    else content (currentPrompt s) ++ LF ++ t.
Proof.
  unfold insertTemplate, truthy_string.
  cbn [setCurrentPrompt currentPrompt with_content content].
  destruct (String.eqb_spec (content (currentPrompt s)) "") as [-> | _]; reflexivity.
Qed.

Lemma insert_all_nonempty (ts : list string) (s : AppState) :
  Forall (fun t => t <> "") ts ->
  content (currentPrompt s) <> "" ->
  content (currentPrompt (insert_all ts s))
  = String.concat LF (content (currentPrompt s) :: ts).
Proof.
  intros Hts. revert s.
  induction Hts as [| t ts Ht Hts IH]; intros s Hc; [reflexivity |].
  unfold insert_all in *. cbn [fold_left].
  assert (Hstep : content (currentPrompt (insertTemplate t s))
                  = content (currentPrompt s) ++ LF ++ t).
  { rewrite insertTemplate_content.
    destruct (String.eqb_spec (content (currentPrompt s)) ""); [contradiction | reflexivity]. }
  rewrite IH.
  - rewrite Hstep. apply concat_absorb.
  - rewrite Hstep. now apply append_nonempty_r, append_nonempty_r.
Qed.

End TemplateFacts.

(** X11.  Inserting non-empty templates one after the other joins them
    with line feeds after the text already in the draft: into an empty
    draft the first template goes without a leading line feed; into a
    non-empty draft each template follows a line feed.  The text already
    there is never altered, and nothing but the draft's content changes. *)
Theorem X11_insert_templates (ts : list string) (s : AppState) :
  Forall (fun t => t <> "") ts ->
  content (currentPrompt (insert_all ts s))
  = String.concat LF (if String.eqb (content (currentPrompt s)) "" then ts
                      else content (currentPrompt s) :: ts)
  /\ title (currentPrompt (insert_all ts s)) = title (currentPrompt s)
  /\ version (currentPrompt (insert_all ts s)) = version (currentPrompt s)
  /\ id (currentPrompt (insert_all ts s)) = id (currentPrompt s)
  /\ aiResult (insert_all ts s) = aiResult s
  /\ viewMode (insert_all ts s) = viewMode s
  /\ selectedPromptId (insert_all ts s) = selectedPromptId s.
Proof.
  intros Hts. split.
  - destruct (String.eqb_spec (content (currentPrompt s)) "") as [Hempty | Hfull].
    + destruct Hts as [| t ts Ht Hts]; [exact Hempty |].
      change (insert_all (t :: ts) s) with (insert_all ts (insertTemplate t s)).
      assert (Hfirst : content (currentPrompt (insertTemplate t s)) = t).
      { rewrite insertTemplate_content, Hempty. reflexivity. }
      rewrite insert_all_nonempty; [now rewrite Hfirst | assumption | now rewrite Hfirst].
    + now apply insert_all_nonempty.
  - clear Hts. revert s.
    induction ts as [| t ts IH]; intros s; [repeat split |].
    change (insert_all (t :: ts) s) with (insert_all ts (insertTemplate t s)).
    destruct (IH (insertTemplate t s)) as (H1 & H2 & H3 & H4 & H5 & H6).
    rewrite H1, H2, H3, H4, H5, H6. repeat split.
Qed.

(** X11 on two templates inserted into the empty draft. *)
Lemma X11_insert_templates_witness :
  content (currentPrompt (insert_all ["### Upload"; "### Export"] (handleCreateNew initialState)))
  = "### Upload" ++ LF ++ "### Export".
Proof.
  destruct (X11_insert_templates ["### Upload"; "### Export"] (handleCreateNew initialState))
    as [Hcontent _].
  - repeat constructor; discriminate.
  - rewrite Hcontent. reflexivity.
Defined.

(** ** The model adapter *)



Section AdapterFacts.
Context `{RT : Runtime}.

Lemma get_throws_TypeError (v : jsval) (key : string) (e : exn) :
  get v key = Throw e -> exn_name e = "TypeError".
Proof.
  destruct v as [[] |]; cbn [get]; intros Hget;
    try discriminate Hget; injection Hget as <-; reflexivity.
Qed.

Lemma get0_throws_TypeError (v : jsval) (e : exn) :
  get0 v = Throw e -> exn_name e = "TypeError".
Proof.
  destruct v as [[] |]; cbn [get0]; intros Hget;
    try discriminate Hget; injection Hget as <-; reflexivity.
Qed.

End AdapterFacts.

(** X13.  Reading [data.choices[0].message.content] from the parsed body
    of the chat backend.  On a body of the expected shape it gives the
    [content] field, [undefined] when that field is missing.  It succeeds
    only on an object that has a [choices] field which is not [null]; every
    other body makes it throw, and whatever it throws is a [TypeError]. *)
Theorem X13_message_content `{RT : Runtime} (data : json) :
  (forall fields first others message,
     data = JObj fields ->
     assoc "choices" fields = Some (JArr (JObj first :: others)) ->
     assoc "message" first = Some (JObj message) ->
     AiService.message_content data = Ok (assoc "content" message))
  /\ (forall answer,
        AiService.message_content data = Ok answer ->
        exists fields choices,
          data = JObj fields /\ assoc "choices" fields = Some choices /\ choices <> JNull)
  /\ (forall e, AiService.message_content data = Throw e -> exn_name e = "TypeError").
Proof.
  unfold AiService.message_content. split; [| split].
  - intros fields first others message -> Hchoices Hmessage.
    cbn [get prop bind]. rewrite Hchoices. cbn [get0 nth_error bind get prop].
    rewrite Hmessage. reflexivity.
  - intros answer Hok.
    destruct data as [| b | q | t | items | fields]; cbn [get prop bind] in Hok;
      try discriminate Hok.
    destruct (assoc "choices" fields) as [choices |] eqn:Hchoices;
      [| discriminate Hok].
    exists fields, choices. split; [reflexivity |]. split; [exact Hchoices |].
    intros ->. discriminate Hok.
  - intros e Hthrow.
    destruct (get (Some data) "choices") as [choices | e1] eqn:H1; cbn [bind] in Hthrow;
      [| injection Hthrow as <-; now apply (get_throws_TypeError _ _ _ H1)].
    destruct (get0 choices) as [choice | e2] eqn:H2; cbn [bind] in Hthrow;
      [| injection Hthrow as <-; now apply (get0_throws_TypeError _ _ H2)].
    destruct (get choice "message") as [message | e3] eqn:H3; cbn [bind] in Hthrow;
      [| injection Hthrow as <-; now apply (get_throws_TypeError _ _ _ H3)].
    now apply (get_throws_TypeError _ _ _ Hthrow).
Qed.

(** X13 on a body of the expected shape and on a body with an empty
    [choices] array. *)
Lemma X13_message_content_witness :
  @AiService.message_content plain_runtime sample_data = Ok (Some (JStr "{}"))
  /\ exists e, @AiService.message_content plain_runtime (JObj [("choices", JArr [])]) = Throw e
               /\ exn_name e = "TypeError".
Proof.
  split.
  - destruct (@X13_message_content plain_runtime sample_data) as (Hshape & _).
    now apply (Hshape _ _ _ _ eq_refl eq_refl eq_refl).
  - destruct (@X13_message_content plain_runtime (JObj [("choices", JArr [])]))
      as (_ & _ & Hthrow).
    eexists. split; [reflexivity |]. now apply Hthrow.
Defined.

(** X14.  On the chat backend, when the response is a success, its body
    parses to an object of the expected shape whose [content] is a text,
    and that text parses, the analysis resolves with the parsed value of
    that text, unchanged and unchecked: it need not have the two fields of
    an analysis result. *)
Theorem X14_chat_success `{RT : Runtime} (w : World) (promptContent title : string)
    (res : HttpResponse) (body answer : string) (data parsed : json) :
  fetch w (AiService.qwen_request promptContent title) = Ok res ->
  res_ok res = true ->
  res_text res = Ok body ->
  JSON_parse body = Ok data ->
  AiService.message_content data = Ok (Some (JStr answer)) ->
  JSON_parse answer = Ok parsed ->
  AiService.analyzePrompt w QWEN promptContent title = Ok parsed.
Proof.
  intros Hfetch Hok Hbody Hdata Hcontent Hparsed.
  unfold AiService.analyzePrompt.
  rewrite Hfetch. cbn [bind]. rewrite Hok. cbn [negb].
  rewrite Hbody. cbn [bind]. rewrite Hdata. cbn [bind].
  rewrite Hcontent. cbn [bind ToString]. exact Hparsed.
Qed.

(** X14 on a response whose answer is the text [{}]: the analysis resolves
    with the empty object. *)
Lemma X14_chat_success_witness :
  @AiService.analyzePrompt sample_runtime answering QWEN "do X" "A" = Ok (JObj []).
Proof.
  apply (@X14_chat_success sample_runtime answering "do X" "A"
           (mkHttpResponse true (Ok sample_body)) sample_body "{}" sample_data (JObj []));
    reflexivity.
Defined.

(** X15.  The failures of an analysis call are exactly those listed by
    [backend_failure], provided [JSON.parse] accepts the literal [{}]: the
    call throws [e] if and only if the request was rejected with [e], or the
    chat endpoint answered with a status that is not a success (and [e] is
    the error ["Qwen API failed"]), or the body could not be read, or the
    body or the answer is not JSON, or the body lacks
    [choices[0].message.content]. *)
Theorem X15_failures_complete `{RT : Runtime} (w : World) (c : AnalyzeCall) (e : exn) :
  (exists v, JSON_parse "{}" = Ok v) ->
  run_call w c = Throw e <-> backend_failure w c e.
Proof.
  intros [v Hempty]. split; [| apply backend_failure_throws].
  unfold run_call, AiService.analyzePrompt. intros Hrun.
  destruct (call_model c) eqn:Hm.
  - destruct (generateContent w _) as [[text |] | e'] eqn:Hg; cbn [bind] in Hrun.
    + destruct (truthy_string text) eqn:Htext.
      * apply (gemini_malformed w c text e Hm Hg); [| exact Hrun].
        now apply truthy_string_spec.
      * congruence.
    + congruence.
    + injection Hrun as <-. now apply gemini_rejected.
  - destruct (fetch w _) as [res | e'] eqn:Hf; cbn [bind] in Hrun;
      [| injection Hrun as <-; now apply qwen_rejected].
    destruct (res_ok res) eqn:Hok; cbn [negb] in Hrun;
      [| injection Hrun as <-; now apply (qwen_status w c res)].
    destruct (res_text res) as [body | e'] eqn:Hbody; cbn [bind] in Hrun;
      [| injection Hrun as <-; now apply (qwen_unreadable w c res)].
    destruct (JSON_parse body) as [data | e'] eqn:Hdata; cbn [bind] in Hrun;
      [| injection Hrun as <-; now apply (qwen_body_malformed w c res body)].
    destruct (AiService.message_content data) as [answer | e'] eqn:Hshape;
      cbn [bind] in Hrun;
      [| injection Hrun as <-; now apply (qwen_shape w c res body data)].
    now apply (qwen_answer_malformed w c res body data answer).
Qed.

(** X15 on the offline world. *)
Lemma X15_failures_complete_witness :
  @backend_failure plain_runtime offline (mkCall QWEN "do X" "A")
    (mkExn "TypeError" "Failed to fetch").
Proof.
  apply (@X15_failures_complete plain_runtime offline (mkCall QWEN "do X" "A")).
  - exists (JObj []). reflexivity.
  - reflexivity.
Defined.

(** ** The listing *)

Section ListingFacts.

Lemma startsWith_spec (pat s : string) :
  JsString.startsWith pat s = true <-> exists post, s = pat ++ post.
Proof.
  revert s. induction pat as [| a pat IH]; intros s; cbn [JsString.startsWith append].
  - split; [intros _; now exists s | reflexivity].
  - destruct s as [| b s].
    + split; [discriminate | intros [post Hpost]; discriminate Hpost].
    + rewrite andb_true_iff, IH. split.
      * intros [Hab [post ->]]. apply Ascii.eqb_eq in Hab as ->. now exists post.
      * intros [post Hpost]. injection Hpost as -> ->.
        split; [apply Ascii.eqb_refl | now exists post].
Qed.

Lemma includes_spec (needle hay : string) :
  includes needle hay = true <-> exists pre post, hay = pre ++ needle ++ post.
Proof.
  split.
  - induction hay as [| c hay IH]; cbn [includes]; rewrite orb_true_iff.
    + intros [Hstart | Hfalse]; [| discriminate].
      apply startsWith_spec in Hstart as [post ->]. now exists "", post.
    + intros [Hstart | Hrest].
      * apply startsWith_spec in Hstart as [post ->]. now exists "", post.
      * destruct (IH Hrest) as (pre & post & ->). now exists (String c pre), post.
  - intros (pre & post & ->).
    induction pre as [| c pre IH]; cbn [append].
    + assert (Hstart : JsString.startsWith needle (needle ++ post) = true)
        by (apply startsWith_spec; now exists post).
      destruct (needle ++ post); cbn [includes]; now rewrite Hstart.
    + cbn [includes]. rewrite IH. apply orb_true_r.
Qed.

Lemma filter_all {A : Type} (f : A -> bool) (l : list A) :
  (forall x, f x = true) -> filter f l = l.
Proof.
  intros Hall. induction l as [| x l IH]; cbn [filter]; [reflexivity |].
  now rewrite Hall, IH.
Qed.

End ListingFacts.

(** X16.  The listing shows a record exactly when it is in the list and
    the lower-cased search term occurs somewhere in its lower-cased title.
    A search term that lower-cases to the empty text shows every record. *)
Theorem X16_search_filter (toLowerCase : string -> string) (s : AppState) :
  (forall p,
     In p (filteredPrompts toLowerCase s)
     <-> In p (prompts s)
         /\ exists pre post,
              toLowerCase (title p) = pre ++ toLowerCase (searchTerm s) ++ post)
  /\ (toLowerCase (searchTerm s) = "" -> filteredPrompts toLowerCase s = prompts s).
Proof.
  unfold filteredPrompts, matches. split.
  - intros p. rewrite filter_In, includes_spec. reflexivity.
  - intros Hterm. apply filter_all. intros p. rewrite Hterm.
    apply includes_spec. now exists "", (toLowerCase (title p)).
Qed.

(** X16 on a listing of two records, searched for ["do"] and for nothing,
    with a lower-casing that is the identity on these titles. *)
Lemma X16_search_filter_witness :
  let records := [mkPrompt (Some 1) "todo list" "" "" None "v1.0" None;
                  mkPrompt (Some 2) "mail" "" "" None "v2.0" None] in
  filteredPrompts (fun t => t) (setSearchTerm "do" (setPrompts records initialState))
  = [mkPrompt (Some 1) "todo list" "" "" None "v1.0" None]
  /\ filteredPrompts (fun t => t) (setPrompts records initialState) = records.
Proof.
  cbv zeta. split; [reflexivity |].
  apply (X16_search_filter (fun t => t)). reflexivity.
Defined.

(** X17.  After a successful save and the refresh of the listing that it
    starts: the view is LIST and the loading flag, set while the refresh
    runs, is cleared whether the refresh succeeds or fails.  The success
    notice shows the version that storage returned.  When the refresh
    fails, the old listing is kept and the error notice replaces the success
    notice. *)
Theorem X17_save_and_refresh (db : DbService) (s : AppState) (saved : PromptRecord) :
  db_call db (save_call s) = Ok saved ->
  let s' := fetchPrompts_finish (getAllPrompts db) (handleSave db s) in
  isLoadingPrompts (handleSave db s) = true
  /\ viewMode s' = LIST
  /\ isLoadingPrompts s' = false
  /\ (forall data, getAllPrompts db = Ok data ->
        prompts s' = data
        /\ toast s' = Some (mkToast ("保存成功 " ++ version saved) success))
  /\ (forall e, getAllPrompts db = Throw e ->
        prompts s' = prompts s
        /\ toast s' = Some (mkToast "无法读取数据库，请检查连接" error)).
Proof.
  intros Hsaved. cbv zeta. unfold handleSave. rewrite Hsaved.
  split; [reflexivity |].
  destruct (getAllPrompts db) as [data | e].
  - split; [reflexivity |]. split; [reflexivity |].
    split; [intros data' Hdata; injection Hdata as <-; split; reflexivity | discriminate].
  - split; [reflexivity |]. split; [reflexivity |].
    split; [discriminate | intros e' _; split; reflexivity].
Qed.

(** X17 on a storage that accepts the save and then fails to list. *)
Lemma X17_save_and_refresh_witness :
  let db := mkDb (fun _ => Ok (draft (Some 7) "v4.0")) (Throw (mkExn "Error" "offline")) in
  let s := previewing (draft (Some 7) "v3.0") JNull in
  toast (handleSave db s) = Some (mkToast "保存成功 v4.0" success)
  /\ toast (fetchPrompts_finish (getAllPrompts db) (handleSave db s))
     = Some (mkToast "无法读取数据库，请检查连接" error).
Proof.
  cbv zeta. split; [reflexivity |].
  destruct (X17_save_and_refresh
              (mkDb (fun _ => Ok (draft (Some 7) "v4.0")) (Throw (mkExn "Error" "offline")))
              (previewing (draft (Some 7) "v3.0") JNull)
              (draft (Some 7) "v4.0") eq_refl) as (_ & _ & _ & _ & Hfail).
  now apply (Hfail (mkExn "Error" "offline")).
Defined.

(** ** Probing and opening *)

(** X18.  [checkConnections] never ends on an exception of the backend
    probe: when the storage probe resolves, both indicators are set, the
    backend indicator to the boolean that [checkConnection] gives for the
    model selected at that moment.  When the storage probe rejects, nothing
    is set and the backend is not probed.  Selecting another model leaves
    the indicator as it was. *)
Theorem X18_checkConnections (test : result bool) (w : World) (db : DbService)
    (s : AppState) :
  (forall dbOk, test = Ok dbOk ->
     exists aiOk,
       AiService.checkConnection w (aiModel s) = Ok aiOk
       /\ checkConnections test w s = (setAiConnected aiOk (setDbConnected dbOk s), None))
  /\ (forall e w', test = Throw e ->
        checkConnections test w s = (s, Some e)
        /\ checkConnections test w' s = checkConnections test w s)
  /\ (forall m, aiConnected (fst (handle db (SelectModel m) s)) = aiConnected s).
Proof.
  split; [| split].
  - intros dbOk ->. unfold checkConnections.
    unfold AiService.checkConnection.
    destruct (AiService.checkConnection_body w (aiModel s)) as [b | e];
      eexists; split; reflexivity.
  - intros e w' ->. split; reflexivity.
  - intros m. reflexivity.
Qed.

(** X18 with storage reachable and the network to the chat backend down,
    after the chat backend has been selected. *)
Lemma X18_checkConnections_witness :
  let s := setAiModel QWEN initialState in
  checkConnections (Ok true) offline s
  = (setAiConnected false (setDbConnected true s), None).
Proof.
  cbv zeta.
  destruct (X18_checkConnections (Ok true) offline
              (mkDb (fun _ => Ok (draft None "")) (Ok []))
              (setAiModel QWEN initialState)) as (Hok & _).
  destruct (Hok true eq_refl) as (aiOk & Hprobe & Hstate).
  rewrite Hstate. injection Hprobe as <-. reflexivity.
Defined.

(** X19.  Opening a record and saving it unchanged.  For a record with a
    non-zero identifier the save is an update of that identifier which
    sends the record's title, summary and creation time, its content both
    as [content] and as [excontext], and the next version: the record's
    stored [excontext] is not sent.  Starting a new draft and saving it at
    once creates a record with empty title and content at [v1.0]: a save
    checks nothing.  Both leave the EDIT view with no result. *)
Theorem X19_open_and_save (p : PromptRecord) (s : AppState) :
  (forall i, id p = Some i -> i <> 0 ->
     save_call (handleEdit p s)
     = UpdatePrompt i (mkPayload (Some i) (title p) (summary p) (Some (JStr (content p)))
                         (content p) (nextVersion (version p)) (created_at p)))
  /\ (id p = None ->
      save_call (handleEdit p s)
      = CreatePrompt (mkPayload None (title p) (summary p) (Some (JStr (content p)))
                        (content p) "v1.0" (created_at p)))
  /\ save_call (handleCreateNew s)
     = CreatePrompt (mkPayload None "" "" (Some (JStr "")) "" "v1.0" None)
  /\ viewMode (handleEdit p s) = EDIT /\ aiResult (handleEdit p s) = JNull
  /\ viewMode (handleCreateNew s) = EDIT /\ aiResult (handleCreateNew s) = JNull.
Proof.
  split; [| split; [| repeat split]].
  - intros i Hid Hnz.
    rewrite (save_call_update (handleEdit p s) i); [| exact Hid | exact Hnz].
    unfold payload. cbn. now rewrite Hid.
  - intros Hid. unfold save_call, payload. cbn. now rewrite Hid.
Qed.

(** X19 on record 7, whose stored raw context is ["old"]. *)
Lemma X19_open_and_save_witness :
  save_call (handleEdit (mkPrompt (Some 7) "A" "s" "do X" (Some "old") "v3.0" (Some "2024"))
               initialState)
  = UpdatePrompt 7 (mkPayload (Some 7) "A" "s" (Some (JStr "do X")) "do X" "v4.0" (Some "2024")).
Proof.
  destruct (X19_open_and_save
              (mkPrompt (Some 7) "A" "s" "do X" (Some "old") "v3.0" (Some "2024"))
              initialState) as (Hupdate & _).
  rewrite (Hupdate 7 eq_refl); [reflexivity | discriminate].
Defined.

